(** * Book tracker dashboard (frontend/src/App.js): embedding and properties

    The component [App] of frontend/src/App.js is embedded as follows.

    - JavaScript strings are sequences of UTF-16 code units ([list N]).
    - The records the component exchanges with the backend (books,
      notifications, settings, listings) are Rocq records.
    - The component state (the [useState] cells) is the record [AppState].
    - An async handler is a computation over a [World] (component state,
      requests issued so far, console, dialogs shown) that either fulfils or
      rejects; [await] is the bind of that monad, [try]/[catch]/[finally]
      are combinators.
    - The backend and the user are an environment [Env]: it decides, for the
      k-th request, whether [fetch] rejects, what [response.ok] is and what
      [response.json()] yields, and what the user answers to a dialog.
    - A handler closes over the state of the render that created it; that
      snapshot is an explicit argument of every handler that reads state.

    A handler runs to completion before the next one starts: interleavings
    of continuations of different handlers at [await] points are not part of
    the model. *)

From Stdlib Require Import NArith ZArith String Ascii List Bool Lia.
From stdpp Require Import base gmap list.
Import ListNotations.

Local Open Scope N_scope.

(** ** JavaScript strings *)

Abbreviation jsstring := (list N) (only parsing).

(** An ASCII literal of the source as code units. *)
Fixpoint js (s : string) : jsstring :=
  match s with
  | EmptyString => []
  | String c s' => N_of_ascii c :: js s'
  end.

(** [WhiteSpace] and [LineTerminator] code units of ECMAScript, the ones
    [String.prototype.trim] strips. *)
Definition is_js_whitespace (c : N) : bool :=
  (c =? 0x09) || (c =? 0x0A) || (c =? 0x0B) || (c =? 0x0C) || (c =? 0x0D)
  || (c =? 0x20) || (c =? 0xA0) || (c =? 0x1680)
  || ((0x2000 <=? c) && (c <=? 0x200A))
  || (c =? 0x2028) || (c =? 0x2029) || (c =? 0x202F) || (c =? 0x205F)
  || (c =? 0x3000) || (c =? 0xFEFF).

Fixpoint trim_start (s : jsstring) : jsstring :=
  match s with
  | c :: s' => if is_js_whitespace c then trim_start s' else s
  | [] => []
  end.

Definition trim_end (s : jsstring) : jsstring := rev (trim_start (rev s)).

(** [s.trim()] *)
Definition trim (s : jsstring) : jsstring := trim_end (trim_start s).

(** Truthiness of a string: the empty string is the only falsy one. *)
Definition truthy_string (s : jsstring) : bool :=
  match s with [] => false | _ => true end.

(** [s.startsWith(p)] *)
Fixpoint starts_with (p s : jsstring) : bool :=
  match p, s with
  | [], _ => true
  | a :: p', b :: s' => (a =? b) && starts_with p' s'
  | _ :: _, [] => false
  end.

(** ** Data exchanged with the backend *)

Module Site.
(** An element of [sitesToTrack] in [addBook]. *)
Record t := mk {
  name : jsstring;
  url : jsstring;
  last_check : option jsstring;     (* null on creation *)
  listings_found : Z
}.
End Site.

Module Book.
Record t := mk {
  id : jsstring;
  title : jsstring;
  author : jsstring;
  sites : list Site.t;
  custom_sites : list jsstring;
  enable_google_search : bool;
  is_active : bool;
  last_checked : option jsstring
}.
End Book.

Module Notification.
Record t := mk {
  id : jsstring;
  book_title : jsstring;
  message : jsstring;
  listing_url : jsstring;
  read : bool;
  created_at : jsstring
}.
End Notification.

Module Listing.
Record t := mk {
  url : jsstring;
  title : jsstring;
  site_name : jsstring;
  price : jsstring;
  found_at : jsstring
}.
End Listing.

Module Settings.
Record t := mk { check_interval_hours : Z }.
End Settings.

Module DebugResult.
(** What [debugScraping] reads of the scrape-test answer; the two fields
    are held as the text the template literal interpolates. *)
Record t := mk { site : jsstring; listings_found : jsstring }.
End DebugResult.

(** The form state [newBook]. [sites] is an object whose own keys keep
    their insertion order, which [Object.entries] follows. *)
Module NewBook.
Record t := mk {
  title : jsstring;
  author : jsstring;
  sites : list (jsstring * bool);
  enable_google_search : bool;
  custom_sites : list jsstring
}.
End NewBook.

(** The object [bookData] that [addBook] serialises. *)
Module BookData.
Record t := mk {
  title : jsstring;
  author : jsstring;
  sites : list Site.t;
  custom_sites : list jsstring;
  enable_google_search : bool;
  is_active : bool
}.
End BookData.

(** [{ ...obj, [k]: v }] on an object held as its entries: an existing key
    keeps its place, a new key goes last (the keys here are site names,
    none of them an array index). *)
Fixpoint obj_set (k : jsstring) (v : bool) (obj : list (jsstring * bool))
  : list (jsstring * bool) :=
  match obj with
  | [] => [(k, v)]
  | (k', v') :: rest =>
      if bool_decide (k' = k) then (k, v) :: rest
      else (k', v') :: obj_set k v rest
  end.

(** ** Component state *)

Inductive Tab := TabBooks | TabNotifications | TabSettings.

Record AppState := mkApp {
  books : list Book.t;
  notifications : list Notification.t;
  listings : gmap (list N) (list Listing.t);
  activeTab : Tab;
  showAddBook : bool;
  loading : bool;
  settings : Settings.t;
  newBook : NewBook.t;
  customSiteInput : jsstring;
  showAddSite : gmap (list N) bool
}.

Definition initialNewBook : NewBook.t :=
  NewBook.mk [] []
    [(js "nadirkitap", true); (js "kitantik", true); (js "halkkitabevi", true)]
    true [].

(** The arguments of the [useState] calls. *)
Definition initialState : AppState :=
  {| books := []; notifications := []; listings := ∅;
     activeTab := TabBooks; showAddBook := false; loading := false;
     settings := Settings.mk 6; newBook := initialNewBook;
     customSiteInput := []; showAddSite := ∅ |}.

(** ** Requests, responses, environment *)

Inductive Method := GET | POST | PUT | DELETE.

(** The argument of [JSON.stringify] for the [body] option. *)
Inductive Body :=
| NoBody
| BookBody (b : BookData.t)
| UrlBody (url : jsstring).          (* { url: ... } *)

Record Request := mkRequest {
  method : Method;
  url : jsstring;
  headers : list (jsstring * jsstring);
  body : Body
}.

Definition json_headers : list (jsstring * jsstring) :=
  [(js "Content-Type", js "application/json")].

Inductive Exn :=
| FetchFailed                         (* fetch rejected *)
| SyntaxError                         (* response.json() rejected *)
| URIError
| ReferenceError (identifier : jsstring).

(** A settled promise, also the completion of an async function. *)
Inductive Settled (A : Type) :=
| Fulfilled (a : A)
| Rejected (e : Exn).
Arguments Fulfilled {A} a.
Arguments Rejected {A} e.

(** What a call site reads out of [response.json()]. The payloads are typed:
    a backend whose JSON parses has the shape the component stores.
    [RUnread] is for the call sites that never call [json()]. *)
Inductive Resource :=
| RBooks | RNotifications | RSettings | RListings | RDebug | RUnread.

Definition data (r : Resource) : Type :=
  match r with
  | RBooks => list Book.t
  | RNotifications => list Notification.t
  | RSettings => Settings.t
  | RListings => list Listing.t
  | RDebug => DebugResult.t
  | RUnread => unit
  end.

Record Response (r : Resource) := mkResponse {
  ok : bool;
  json : Settled (data r)
}.
Arguments ok {r} _.
Arguments json {r} _.

Inductive ConsoleEntry :=
| ConsoleError (msg : jsstring) (e : Exn)
| ConsoleLog (msg : jsstring) (d : DebugResult.t).

Inductive Dialog :=
| ConfirmDialog (msg : jsstring)
| AlertDialog (msg : jsstring).

Record Env := mkEnv {
  (** [process.env.REACT_APP_BACKEND_URL], as interpolated *)
  API_BASE_URL : jsstring;
  (** the outcome of the k-th [fetch] (k counts from 0) *)
  respond : forall r : Resource, nat -> Request -> Settled (Response r);
  (** the user's answer to the k-th dialog *)
  window_confirm : nat -> jsstring -> bool;
  encodeURIComponent : jsstring -> Settled jsstring
}.

Record World := mkWorld {
  app : AppState;
  sent : list Request;
  console : list ConsoleEntry;
  dialogs : list Dialog
}.

Definition initialWorld : World := mkWorld initialState [] [] [].

(** ** The monad of async handlers *)

Definition M (A : Type) : Type := World -> Settled A * World.

Definition ret {A} (a : A) : M A := fun w => (Fulfilled a, w).

Definition throw {A} (e : Exn) : M A := fun w => (Rejected e, w).

(** Sequencing; also [await] of the promise an async call returns. *)
Definition bind {A B} (m : M A) (k : A -> M B) : M B :=
  fun w =>
    match m w with
    | (Fulfilled a, w') => k a w'
    | (Rejected e, w') => (Rejected e, w')
    end.

Declare Scope js_scope.
Delimit Scope js_scope with js.
Notation "x <- m ;; k" := (bind m (fun x => k))
  (at level 100, m at next level, right associativity) : js_scope.
Notation "m ;; k" := (bind m (fun _ => k))
  (at level 100, right associativity) : js_scope.
Local Open Scope js_scope.

(** [try { body } catch (error) { handler error }] *)
Definition try_catch {A} (body : M A) (handler : Exn -> M A) : M A :=
  fun w =>
    match body w with
    | (Fulfilled a, w') => (Fulfilled a, w')
    | (Rejected e, w') => handler e w'
    end.

(** [try { body } finally { fin }]: [fin] runs on both completions; when it
    completes normally the completion of [body] stands. *)
Definition try_finally {A} (body : M A) (fin : M unit) : M A :=
  fun w =>
    match body w with
    | (r, w') =>
        match fin w' with
        | (Fulfilled _, w'') => (r, w'')
        | (Rejected e, w'') => (Rejected e, w'')
        end
    end.

Definition modify_app (f : AppState -> AppState) : M unit :=
  fun w => (Fulfilled tt, mkWorld (f (app w)) (sent w) (console w) (dialogs w)).

Definition console_error (msg : jsstring) (e : Exn) : M unit :=
  fun w => (Fulfilled tt,
            mkWorld (app w) (sent w) (console w ++ [ConsoleError msg e]) (dialogs w)).

Definition console_log (msg : jsstring) (d : DebugResult.t) : M unit :=
  fun w => (Fulfilled tt,
            mkWorld (app w) (sent w) (console w ++ [ConsoleLog msg d]) (dialogs w)).

(** ** State setters (the second components of the [useState] pairs) *)

Definition setBooks (v : list Book.t) : M unit :=
  modify_app (fun a =>
    mkApp v (notifications a) (listings a) (activeTab a) (showAddBook a)
      (loading a) (settings a) (newBook a) (customSiteInput a) (showAddSite a)).

Definition setNotifications (v : list Notification.t) : M unit :=
  modify_app (fun a =>
    mkApp (books a) v (listings a) (activeTab a) (showAddBook a)
      (loading a) (settings a) (newBook a) (customSiteInput a) (showAddSite a)).

(** [setListings] is only called with an updater function. *)
Definition setListings
    (f : gmap (list N) (list Listing.t) -> gmap (list N) (list Listing.t)) : M unit :=
  modify_app (fun a =>
    mkApp (books a) (notifications a) (f (listings a)) (activeTab a) (showAddBook a)
      (loading a) (settings a) (newBook a) (customSiteInput a) (showAddSite a)).

Definition setActiveTab (v : Tab) : M unit :=
  modify_app (fun a =>
    mkApp (books a) (notifications a) (listings a) v (showAddBook a)
      (loading a) (settings a) (newBook a) (customSiteInput a) (showAddSite a)).

Definition setShowAddBook (v : bool) : M unit :=
  modify_app (fun a =>
    mkApp (books a) (notifications a) (listings a) (activeTab a) v
      (loading a) (settings a) (newBook a) (customSiteInput a) (showAddSite a)).

Definition setLoading (v : bool) : M unit :=
  modify_app (fun a =>
    mkApp (books a) (notifications a) (listings a) (activeTab a) (showAddBook a)
      v (settings a) (newBook a) (customSiteInput a) (showAddSite a)).

Definition setSettings (v : Settings.t) : M unit :=
  modify_app (fun a =>
    mkApp (books a) (notifications a) (listings a) (activeTab a) (showAddBook a)
      (loading a) v (newBook a) (customSiteInput a) (showAddSite a)).

Definition setNewBook (v : NewBook.t) : M unit :=
  modify_app (fun a =>
    mkApp (books a) (notifications a) (listings a) (activeTab a) (showAddBook a)
      (loading a) (settings a) v (customSiteInput a) (showAddSite a)).

Definition setCustomSiteInput (v : jsstring) : M unit :=
  modify_app (fun a =>
    mkApp (books a) (notifications a) (listings a) (activeTab a) (showAddBook a)
      (loading a) (settings a) (newBook a) v (showAddSite a)).

Definition setShowAddSite (v : gmap (list N) bool) : M unit :=
  modify_app (fun a =>
    mkApp (books a) (notifications a) (listings a) (activeTab a) (showAddBook a)
      (loading a) (settings a) (newBook a) (customSiteInput a) v).

(** ** The handlers of [App] *)

Section Handlers.

Variable env : Env.

(** [await fetch(url, { method, headers, body })]: the request is issued,
    then the promise settles as the environment decides. *)
Definition fetch (r : Resource) (req : Request) : M (Response r) :=
  fun w =>
    (respond env r (length (sent w)) req,
     mkWorld (app w) (sent w ++ [req]) (console w) (dialogs w)).

(** [await response.json()] *)
Definition response_json {r : Resource} (resp : Response r) : M (data r) :=
  fun w => (json resp, w).

(** [window.confirm(msg)] *)
Definition confirm (msg : jsstring) : M bool :=
  fun w =>
    (Fulfilled (window_confirm env (length (dialogs w)) msg),
     mkWorld (app w) (sent w) (console w) (dialogs w ++ [ConfirmDialog msg])).

(** [alert(msg)] *)
Definition alert (msg : jsstring) : M unit :=
  fun w =>
    (Fulfilled tt,
     mkWorld (app w) (sent w) (console w) (dialogs w ++ [AlertDialog msg])).

Definition get (u : jsstring) : Request := mkRequest GET u [] NoBody.

(** *** URLs, as the template literals build them *)

Definition url_books : jsstring := API_BASE_URL env ++ js "/api/books".
Definition url_notifications : jsstring :=
  API_BASE_URL env ++ js "/api/notifications".
Definition url_settings : jsstring := API_BASE_URL env ++ js "/api/settings".
Definition url_listings (bookId : jsstring) : jsstring :=
  API_BASE_URL env ++ js "/api/listings/" ++ bookId.
Definition url_book (bookId : jsstring) : jsstring :=
  API_BASE_URL env ++ js "/api/books/" ++ bookId.
Definition url_book_check (bookId : jsstring) : jsstring :=
  API_BASE_URL env ++ js "/api/books/" ++ bookId ++ js "/check".
Definition url_notification_read (notificationId : jsstring) : jsstring :=
  API_BASE_URL env ++ js "/api/notifications/" ++ notificationId ++ js "/read".
Definition url_add_site (bookId : jsstring) : jsstring :=
  API_BASE_URL env ++ js "/api/books/" ++ bookId ++ js "/add-site".
Definition url_remove_site (bookId : jsstring) : jsstring :=
  API_BASE_URL env ++ js "/api/books/" ++ bookId ++ js "/remove-site".
Definition url_scrape_test (title author site : jsstring) : jsstring :=
  API_BASE_URL env ++ js "/api/debug/scrape-test?title=" ++ title
    ++ js "&author=" ++ author ++ js "&site=" ++ site.

(** *** Fetchers *)

Definition fetchBooks : M unit :=
  try_catch
    (response <- fetch RBooks (get url_books);;
     data <- response_json response;;
     setBooks data)
    (fun error => console_error (js "Error fetching books:") error).

Definition fetchNotifications : M unit :=
  try_catch
    (response <- fetch RNotifications (get url_notifications);;
     data <- response_json response;;
     setNotifications data)
    (fun error => console_error (js "Error fetching notifications:") error).

Definition fetchSettings : M unit :=
  try_catch
    (response <- fetch RSettings (get url_settings);;
     data <- response_json response;;
     setSettings data)
    (fun error => console_error (js "Error fetching settings:") error).

Definition fetchBookListings (bookId : jsstring) : M unit :=
  try_catch
    (response <- fetch RListings (get (url_listings bookId));;
     data <- response_json response;;
     setListings (fun prev => <[bookId := data]> prev))
    (fun error => console_error (js "Error fetching listings:") error).

(** *** [addBook] *)

(** [const sitesToTrack = Object.entries(newBook.sites).filter(...).map(...)] *)
Definition sitesToTrack (nb : NewBook.t) : list Site.t :=
  map (fun entry : jsstring * bool =>
         let siteName := fst entry in
         Site.mk siteName (siteName ++ js ".com") None 0%Z)
      (List.filter (fun entry : jsstring * bool => snd entry) (NewBook.sites nb)).

(** [const bookData = { ... }]. [newBook.custom_sites] is an array, hence
    truthy, so [newBook.custom_sites || []] is that array. *)
Definition bookData (nb : NewBook.t) : BookData.t :=
  {| BookData.title := NewBook.title nb;
     BookData.author := NewBook.author nb;
     BookData.sites := sitesToTrack nb;
     BookData.custom_sites := NewBook.custom_sites nb;
     BookData.enable_google_search := NewBook.enable_google_search nb;
     BookData.is_active := true |}.

(** [e.preventDefault()]: the native form submission is outside the model. *)
Definition preventDefault : M unit := ret tt.

Definition when (b : bool) (m : M unit) : M unit := if b then m else ret tt.

Definition addBook (s : AppState) : M unit :=
  preventDefault;;
  setLoading true;;
  try_finally
    (try_catch
       (response <- fetch RUnread
           (mkRequest POST url_books json_headers (BookBody (bookData (newBook s))));;
        when (ok response)
          (fetchBooks;;
           setNewBook initialNewBook;;
           setShowAddBook false))
       (fun error => console_error (js "Error adding book:") error))
    (setLoading false).

(** *** [deleteBook] *)

Definition confirm_delete_message : jsstring :=
  js "Bu kitab" ++ [0x131] ++ js " takipten " ++ [0xE7; 0x131]
    ++ js "karmak istedi" ++ [0x11F] ++ js "inizden emin misiniz?".

Definition deleteBook (bookId : jsstring) : M unit :=
  confirmed <- confirm confirm_delete_message;;
  if negb confirmed then ret tt
  else
    try_catch
      (fetch RUnread (mkRequest DELETE (url_book bookId) [] NoBody);;
       fetchBooks)
      (fun error => console_error (js "Error deleting book:") error).

(** *** [manualCheckBook] *)

Definition manualCheckBook (bookId : jsstring) : M unit :=
  setLoading true;;
  try_finally
    (try_catch
       (fetch RUnread (mkRequest POST (url_book_check bookId) [] NoBody);;
        fetchBooks;;
        fetchNotifications;;
        fetchBookListings bookId)
       (fun error => console_error (js "Error checking book:") error))
    (setLoading false).

(** *** [markNotificationRead] *)

Definition markNotificationRead (notificationId : jsstring) : M unit :=
  try_catch
    (fetch RUnread (mkRequest PUT (url_notification_read notificationId) [] NoBody);;
     fetchNotifications)
    (fun error => console_error (js "Error marking notification as read:") error).

(** *** [addCustomSite], [removeCustomSite] *)

Definition addCustomSite (s : AppState) (bookId : jsstring) : M unit :=
  if negb (truthy_string (trim (customSiteInput s))) then ret tt
  else
    try_catch
      (response <- fetch RUnread
          (mkRequest POST (url_add_site bookId) json_headers
             (UrlBody (customSiteInput s)));;
       when (ok response)
         (fetchBooks;;
          setCustomSiteInput [];;
          setShowAddSite (<[bookId := false]> (showAddSite s))))
      (fun error => console_error (js "Error adding custom site:") error).

Definition removeCustomSite (bookId siteUrl : jsstring) : M unit :=
  try_catch
    (response <- fetch RUnread
        (mkRequest DELETE (url_remove_site bookId) json_headers (UrlBody siteUrl));;
     when (ok response) fetchBooks)
    (fun error => console_error (js "Error removing custom site:") error).

(** *** [debugScraping] *)

Definition lift {A} (r : Settled A) : M A := fun w => (r, w).

Definition scraping_alert (d : DebugResult.t) : jsstring :=
  js "Scraping test completed!" ++ [0x0A] ++ js "Site: " ++ DebugResult.site d
    ++ [0x0A] ++ js "Listings found: " ++ DebugResult.listings_found d
    ++ [0x0A] ++ js "Check console for details.".

(** [site] is [None] when the argument is left out ([site = 'nadirkitap']). *)
Definition debugScraping (title author : jsstring) (site : option jsstring) : M unit :=
  let site := default (js "nadirkitap") site in
  try_catch
    (t <- lift (encodeURIComponent env title);;
     a <- lift (encodeURIComponent env author);;
     response <- fetch RDebug (get (url_scrape_test t a site));;
     data <- response_json response;;
     console_log (js "Debug scraping results:") data;;
     alert (scraping_alert data))
    (fun error => console_error (js "Error testing scraping:") error).

(** *** The settings select

    [onChange={(e) => updateSettings({ ...settings, check_interval_hours:
    parseInt(e.target.value) })}]. The identifier [updateSettings] has no
    binding: the module declares and imports none, so evaluating the callee
    throws before the argument is evaluated. *)
Definition bound_identifiers : list string :=
  [ "React"; "useState"; "useEffect"; "API_BASE_URL"; "App";
    "books"; "setBooks"; "notifications"; "setNotifications";
    "listings"; "setListings"; "activeTab"; "setActiveTab";
    "showAddBook"; "setShowAddBook"; "loading"; "setLoading";
    "settings"; "setSettings"; "newBook"; "setNewBook";
    "customSiteInput"; "setCustomSiteInput"; "showAddSite"; "setShowAddSite";
    "fetchBooks"; "fetchNotifications"; "fetchSettings"; "fetchBookListings";
    "addBook"; "deleteBook"; "manualCheckBook"; "markNotificationRead";
    "addCustomSite"; "removeCustomSite"; "debugScraping"; "unreadCount";
    "e" ]%string.

(** The properties of the global object the module refers to. *)
Definition global_identifiers : list string :=
  [ "process"; "fetch"; "console"; "window"; "alert"; "parseInt"; "Object";
    "JSON"; "Date"; "setInterval"; "clearInterval"; "encodeURIComponent" ]%string.

(** Resolving an identifier that is called. *)
Definition resolve (identifier : string) : M unit :=
  if existsb (String.eqb identifier) (bound_identifiers ++ global_identifiers)
  then ret tt
  else throw (ReferenceError (js identifier)).

Definition interval_onChange (s : AppState) (value : jsstring) : M unit :=
  resolve "updateSettings";;
  (* never reached: there is no function to call *)
  ret tt.

(** The [option] elements of the select. *)
Definition interval_options : list Z := [1; 3; 6; 12; 24]%Z.

(** *** Inline handlers of the form and the navigation *)

Definition title_onChange (s : AppState) (value : jsstring) : M unit :=
  let nb := newBook s in
  setNewBook (NewBook.mk value (NewBook.author nb) (NewBook.sites nb)
                (NewBook.enable_google_search nb) (NewBook.custom_sites nb)).

Definition author_onChange (s : AppState) (value : jsstring) : M unit :=
  let nb := newBook s in
  setNewBook (NewBook.mk (NewBook.title nb) value (NewBook.sites nb)
                (NewBook.enable_google_search nb) (NewBook.custom_sites nb)).

Definition site_onChange (s : AppState) (site : jsstring) (checked : bool) : M unit :=
  let nb := newBook s in
  setNewBook (NewBook.mk (NewBook.title nb) (NewBook.author nb)
                (obj_set site checked (NewBook.sites nb))
                (NewBook.enable_google_search nb) (NewBook.custom_sites nb)).

(** *** Events *)

Inductive Event :=
(* the effect of the first render and its 30 second timer *)
| Mount
| PollTimer
(* navigation *)
| ClickTab (tab : Tab)
(* books tab *)
| ClickNewBook
| ChangeTitle (value : jsstring)
| ChangeAuthor (value : jsstring)
| ChangeSite (site : jsstring) (checked : bool)
| SubmitNewBook
| ClickCancel
| ClickCheck (bookId : jsstring)
| ClickDelete (bookId : jsstring)
| ClickShowListings (bookId : jsstring)
(* notifications tab *)
| ClickMarkRead (notificationId : jsstring)
(* settings tab *)
| ChangeInterval (value : jsstring)
(* functions of the component that no element calls *)
| CallAddCustomSite (bookId : jsstring)
| CallRemoveCustomSite (bookId siteUrl : jsstring)
| CallDebugScraping (title author : jsstring) (site : option jsstring).

(** The handler an event runs, closed over the state [s] of the render that
    installed it. The three calls of the mount effect are not awaited; they
    are sequenced here in the order in which they issue their requests. *)
Definition handle (s : AppState) (ev : Event) : M unit :=
  match ev with
  | Mount => fetchBooks;; fetchNotifications;; fetchSettings
  | PollTimer => fetchNotifications
  | ClickTab tab => setActiveTab tab
  | ClickNewBook => setShowAddBook true
  | ChangeTitle value => title_onChange s value
  | ChangeAuthor value => author_onChange s value
  | ChangeSite site checked => site_onChange s site checked
  | SubmitNewBook => addBook s
  | ClickCancel => setShowAddBook false
  | ClickCheck bookId => manualCheckBook bookId
  | ClickDelete bookId => deleteBook bookId
  | ClickShowListings bookId => fetchBookListings bookId
  | ClickMarkRead notificationId => markNotificationRead notificationId
  | ChangeInterval value => interval_onChange s value
  | CallAddCustomSite bookId => addCustomSite s bookId
  | CallRemoveCustomSite bookId siteUrl => removeCustomSite bookId siteUrl
  | CallDebugScraping title author site => debugScraping title author site
  end.

(** A session: each event is handled by the handler of the latest render;
    an exception that escapes a handler leaves the component mounted. *)
Fixpoint run (evs : list Event) (w : World) : World :=
  match evs with
  | [] => w
  | ev :: evs' => run evs' (snd (handle (app w) ev w))
  end.

End Handlers.

(** ** What the render shows *)

(** [const unreadCount = notifications.filter(n => !n.read).length] *)
Definition unreadCount (s : AppState) : nat :=
  length (List.filter (fun n => negb (Notification.read n)) (notifications s)).

(** [{unreadCount > 0 && (<span ...>{unreadCount}</span>)}]: the number in
    the badge, when a badge is rendered. *)
Definition badge (s : AppState) : option nat :=
  if (0 <? unreadCount s)%nat then Some (unreadCount s) else None.

(** [{!notification.read && (<button onClick=... >Okundu</button>)}] *)
Definition mark_read_button (n : Notification.t) : list Event :=
  if negb (Notification.read n) then [ClickMarkRead (Notification.id n)] else [].

(** The [onClick] handlers of the buttons of the notifications tab. *)
Definition notification_buttons (s : AppState) : list Event :=
  match activeTab s with
  | TabNotifications => concat (map mark_read_button (notifications s))
  | _ => []
  end.

(** The buttons of one book card; a [disabled] button fires no event. *)
Definition book_buttons (s : AppState) (book : Book.t) : list Event :=
  (if loading s then [] else [ClickCheck (Book.id book)])
  ++ [ClickDelete (Book.id book); ClickShowListings (Book.id book)].

Definition books_buttons (s : AppState) : list Event :=
  match activeTab s with
  | TabBooks =>
      [ClickNewBook]
      ++ (if showAddBook s
          then (if loading s then [] else [SubmitNewBook]) ++ [ClickCancel]
          else [])
      ++ concat (map (book_buttons s) (books s))
  | _ => []
  end.

(** Every button of the page, by its [onClick] (or the form's [onSubmit]). *)
Definition buttons (s : AppState) : list Event :=
  [ClickTab TabBooks; ClickTab TabNotifications; ClickTab TabSettings]
  ++ books_buttons s ++ notification_buttons s.

(** ** Observations on runs *)

(** A request or parse failure: [fetch] rejects or [response.json()] does. *)
Definition failed {r : Resource} (answer : Settled (Response r)) : Prop :=
  match answer with
  | Rejected _ => True
  | Fulfilled resp =>
      match json resp with
      | Rejected _ => True
      | Fulfilled _ => False
      end
  end.

Definition is_fulfilled {A} (s : Settled A) : bool :=
  match s with Fulfilled _ => true | Rejected _ => false end.

Definition is_get (r : Request) : Prop := method r = GET.

(** The requests of the handlers that change something on the backend. *)
Definition create_request (env : Env) (nb : NewBook.t) : Request :=
  mkRequest POST (url_books env) json_headers (BookBody (bookData nb)).

Definition delete_request (env : Env) (bookId : jsstring) : Request :=
  mkRequest DELETE (url_book env bookId) [] NoBody.

Definition check_request (env : Env) (bookId : jsstring) : Request :=
  mkRequest POST (url_book_check env bookId) [] NoBody.

Definition read_request (env : Env) (notificationId : jsstring) : Request :=
  mkRequest PUT (url_notification_read env notificationId) [] NoBody.

Definition add_site_request (env : Env) (bookId siteUrl : jsstring) : Request :=
  mkRequest POST (url_add_site env bookId) json_headers (UrlBody siteUrl).

Definition remove_site_request (env : Env) (bookId siteUrl : jsstring) : Request :=
  mkRequest DELETE (url_remove_site env bookId) json_headers (UrlBody siteUrl).


(** The number of notifications whose [read] flag is false. *)
Fixpoint count_unread (ns : list Notification.t) : nat :=
  match ns with
  | [] => 0
  | n :: ns' =>
      match Notification.read n with
      | false => S (count_unread ns')
      | true => count_unread ns'
      end
  end%nat.

(** A request under [/api/notifications] is the listing or a mark-read
    update, and a [DELETE] goes to a book. *)
Definition notification_safe (env : Env) (r : Request) : Prop :=
  (starts_with (url_notifications env) (url r) = true ->
   r = get (url_notifications env) \/
   exists notificationId, r = read_request env notificationId)
  /\ (method r = DELETE ->
      starts_with (API_BASE_URL env ++ js "/api/books/") (url r) = true).

(** An environment in which every [fetch] rejects and the user declines. *)
Definition offline : Env :=
  {| API_BASE_URL := js "http://localhost:8001";
     respond := fun _ _ _ => Rejected FetchFailed;
     window_confirm := fun _ _ => false;
     encodeURIComponent := fun s => Fulfilled s |}.

(** An environment that answers every request with an empty, well-formed
    payload and status [ok], and in which the user accepts. *)
Definition empty_data (r : Resource) : data r :=
  match r with
  | RBooks => []
  | RNotifications => []
  | RSettings => Settings.mk 6
  | RListings => []
  | RDebug => DebugResult.mk (js "nadirkitap") (js "0")
  | RUnread => tt
  end.

Definition online : Env :=
  {| API_BASE_URL := js "http://localhost:8001";
     respond := fun r _ _ => Fulfilled (mkResponse r true (Fulfilled (empty_data r)));
     window_confirm := fun _ _ => true;
     encodeURIComponent := fun s => Fulfilled s |}.

(** An environment whose answers are not JSON. *)
Definition garbled : Env :=
  {| API_BASE_URL := js "http://localhost:8001";
     respond := fun r _ _ => Fulfilled (mkResponse r true (Rejected SyntaxError));
     window_confirm := fun _ _ => true;
     encodeURIComponent := fun s => Fulfilled s |}.

(** [fulfils m]: no exception escapes [m]. *)
Definition fulfils {A} (m : M A) : Prop :=
  forall w, exists a, fst (m w) = Fulfilled a.

(** [sends_only P m]: every request [m] issues satisfies [P]. *)
Definition sends_only (P : Request -> Prop) {A} (m : M A) : Prop :=
  forall w, Forall P (sent w) -> Forall P (sent (snd (m w))).


(** The state in which the user typed [text] in the custom-site input. *)
Definition typed (text : jsstring) : AppState :=
  mkApp [] [] ∅ TabBooks false false (Settings.mk 6) initialNewBook text ∅.

(** A session that loads the page, marks a notification read, checks and
    deletes a book and changes the interval. *)
Definition sample_session : list Event :=
  [Mount; ClickTab TabNotifications; ClickMarkRead (js "n1"); PollTimer;
   ClickTab TabBooks; ClickCheck (js "b1"); ClickDelete (js "b1");
   ClickTab TabSettings; ChangeInterval (js "3")].

(** ** Observations on the state and on requests *)

(** The state with one cell replaced. *)
Definition with_books (v : list Book.t) (a : AppState) : AppState :=
  mkApp v (notifications a) (listings a) (activeTab a) (showAddBook a)
    (loading a) (settings a) (newBook a) (customSiteInput a) (showAddSite a).

Definition with_notifications (v : list Notification.t) (a : AppState) : AppState :=
  mkApp (books a) v (listings a) (activeTab a) (showAddBook a)
    (loading a) (settings a) (newBook a) (customSiteInput a) (showAddSite a).

Definition with_settings (v : Settings.t) (a : AppState) : AppState :=
  mkApp (books a) (notifications a) (listings a) (activeTab a) (showAddBook a)
    (loading a) v (newBook a) (customSiteInput a) (showAddSite a).

Definition with_listings (v : gmap (list N) (list Listing.t)) (a : AppState)
  : AppState :=
  mkApp (books a) (notifications a) v (activeTab a) (showAddBook a)
    (loading a) (settings a) (newBook a) (customSiteInput a) (showAddSite a).

Definition with_loading (v : bool) (a : AppState) : AppState :=
  mkApp (books a) (notifications a) (listings a) (activeTab a) (showAddBook a)
    v (settings a) (newBook a) (customSiteInput a) (showAddSite a).

(** [preserves I m]: a property of the component state that holds before [m]
    holds after it. *)
Definition preserves (I : AppState -> Prop) {A} (m : M A) : Prop :=
  forall w, I (app w) -> I (app (snd (m w))).

(** A request as the component builds them: addressed to the backend; with
    no body and no header, or with a JSON body, the JSON content type and
    the method POST or DELETE. *)
Definition well_formed (env : Env) (r : Request) : Prop :=
  starts_with (API_BASE_URL env ++ js "/api/") (url r) = true
  /\ ((body r = NoBody /\ headers r = [])
      \/ (body r <> NoBody /\ headers r = json_headers
          /\ (method r = POST \/ method r = DELETE))).

(** The keys of an object held as its entries. *)
Definition keys (obj : list (jsstring * bool)) : list jsstring := map fst obj.

(** The names of the sites a form would send. *)
Definition tracked_names (nb : NewBook.t) : list jsstring :=
  map Site.name (sitesToTrack nb).

(** An environment whose answers carry an error status and a body that
    parses. *)
Definition refusing : Env :=
  {| API_BASE_URL := js "http://localhost:8001";
     respond := fun r _ _ => Fulfilled (mkResponse r false (Fulfilled (empty_data r)));
     window_confirm := fun _ _ => true;
     encodeURIComponent := fun s => Fulfilled s |}.

(** An environment in which [encodeURIComponent] throws. *)
Definition unencodable : Env :=
  {| API_BASE_URL := js "http://localhost:8001";
     respond := fun r _ _ => Fulfilled (mkResponse r true (Fulfilled (empty_data r)));
     window_confirm := fun _ _ => true;
     encodeURIComponent := fun _ => Rejected URIError |}.

(** A body [{ url: ... }] only travels with a DELETE. *)
Definition no_add_site (r : Request) : Prop :=
  forall u, body r = UrlBody u -> method r = DELETE.

(** A state that holds a book and a setting other than the backend's. *)
Definition stocked : World :=
  mkWorld
    (with_books [Book.mk (js "b1") (js "Tutunamayanlar") (js "Oguz Atay") [] [] true
                   true None]
       (with_settings (Settings.mk 24) initialState))
    [] [] [].

(** ** The notification engine of the backend

    The backend that answers [/api/books/{id}/check] is not part of
    frontend/src; its reconciliation step is taken from its description. *)

Module Engine.

Record RawListing := mkListing {
  title : jsstring;
  price : jsstring;
  url : jsstring;
  site_name : jsstring
}.

Record Book := mkBook {
  book_id : jsstring;
  book_title : jsstring;
  book_author : jsstring
}.

Record Notification := mkNotification {
  id : nat;
  of_book : jsstring;
  of_title : jsstring;
  message : jsstring;
  listing_url : jsstring;
  read : bool;
  created_at : Z
}.

Section Reconcile.

Context {Key : Type} `{Countable Key}.

(** The fingerprint engine and the message template are left open: any
    deterministic choice fits the description. *)
Variable fingerprint : RawListing -> Key.
Variable compose_message : Book -> RawListing -> jsstring.

Record Site := mkSite {
  name : jsstring;
  enabled : bool;
  last_check : option Z;
  listings_found : nat;
  fingerprints : gset Key
}.

(** The store a reconciliation works on: one (Book, Site) pair's record and
    the append-only inbox. *)
Record Store := mkStore {
  site : Site;
  inbox : list Notification
}.

Definition notify (now : Z) (b : Book) (l : RawListing) (inbox : list Notification)
  : Notification :=
  {| id := length inbox; of_book := book_id b; of_title := book_title b;
     message := compose_message b l; listing_url := url l;
     read := false; created_at := now |}.

(** Modelled from the spec: the per-listing loop of [reconcile] (§4.4), which
    the backend implements outside frontend/src. A listing whose fingerprint
    is absent from the set creates a notification, appended to the inbox, and
    adds the fingerprint; one whose fingerprint is present is skipped. The
    result is (notifications created, fingerprint set, inbox). *)
Fixpoint diff (now : Z) (b : Book) (ls : list RawListing)
    (seen : gset Key) (inbox : list Notification)
  : list Notification * gset Key * list Notification :=
  match ls with
  | [] => ([], seen, inbox)
  | l :: ls' =>
      if decide (fingerprint l ∈ seen) then diff now b ls' seen inbox
      else
        let n := notify now b l inbox in
        let '(created, seen', inbox') :=
          diff now b ls' ({[fingerprint l]} ∪ seen) (inbox ++ [n]) in
        (n :: created, seen', inbox')
  end.

(** Modelled from the spec: [reconcile(Book, Site, RawListing[]) ->
    Notification[]] (§4.4), which the backend implements outside
    frontend/src: run the loop, then increment the site's [listings_found]
    by the number of new listings of this cycle. *)
Definition reconcile (now : Z) (b : Book) (ls : list RawListing) (st : Store)
  : list Notification * Store :=
  let '(created, seen', inbox') :=
    diff now b ls (fingerprints (site st)) (inbox st) in
  (created,
   {| site := {| name := name (site st); enabled := enabled (site st);
                 last_check := last_check (site st);
                 listings_found := (listings_found (site st) + length created)%nat;
                 fingerprints := seen' |};
      inbox := inbox' |}).

End Reconcile.

End Engine.

(** ** Sample data for the engine *)

(** A fingerprint for the examples: the listing's URL. *)
Definition by_url (l : Engine.RawListing) : list N := Engine.url l.

Definition title_message (b : Engine.Book) (l : Engine.RawListing) : jsstring :=
  Engine.book_title b ++ js ": " ++ Engine.title l.

Definition tutunamayanlar : Engine.Book :=
  Engine.mkBook (js "b1") (js "Tutunamayanlar") (js "Oguz Atay").

Definition listing (n : jsstring) : Engine.RawListing :=
  Engine.mkListing (js "Tutunamayanlar " ++ n) (js "100 TL")
    (js "https://site-a.example/" ++ n) (js "site-a").

Definition fresh_site (name : jsstring) : Engine.Store (Key := list N) :=
  Engine.mkStore (Engine.mkSite name true None 0 ∅) [].

(** * Properties *)

Local Open Scope js_scope.

(** Unfolding the monad and the primitives down to the environment's
    answers. *)
Ltac unfold_monad :=
  unfold try_finally, try_catch, bind, ret, throw, when, lift,
    fetch, response_json, confirm, alert, console_error, console_log,
    setBooks, setNotifications, setListings, setSettings, setLoading,
    setNewBook, setShowAddBook, setActiveTab, setCustomSiteInput,
    setShowAddSite, preventDefault, modify_app in *.

(** Case analysis on the next answer of the environment in the goal. *)
Ltac next_answer :=
  match goal with
  | |- context [respond ?env ?r ?k ?req] =>
      let resp := fresh "resp" in
      let e := fresh "e" in
      destruct (respond env r k req) as [resp | e]; cbn
  | |- context [json ?resp] =>
      let d := fresh "d" in
      let e := fresh "e" in
      destruct (json resp) as [d | e]; cbn
  | |- context [ok ?resp] => destruct (ok resp); cbn
  end.

Ltac run_fetcher f :=
  unfold f; unfold_monad; cbn; repeat next_answer; reflexivity.

(** ** The fetchers *)

Section Fetchers.

Variable env : Env.

Lemma fetchBooks_sent w :
  sent (snd (fetchBooks env w)) = sent w ++ [get (url_books env)].
Proof. run_fetcher fetchBooks. Qed.

Lemma fetchNotifications_sent w :
  sent (snd (fetchNotifications env w)) = sent w ++ [get (url_notifications env)].
Proof. run_fetcher fetchNotifications. Qed.

Lemma fetchSettings_sent w :
  sent (snd (fetchSettings env w)) = sent w ++ [get (url_settings env)].
Proof. run_fetcher fetchSettings. Qed.

Lemma fetchBookListings_sent bookId w :
  sent (snd (fetchBookListings env bookId w)) =
  sent w ++ [get (url_listings env bookId)].
Proof. run_fetcher fetchBookListings. Qed.

Lemma fetchBooks_fulfils w : fst (fetchBooks env w) = Fulfilled tt.
Proof. run_fetcher fetchBooks. Qed.

Lemma fetchNotifications_fulfils w : fst (fetchNotifications env w) = Fulfilled tt.
Proof. run_fetcher fetchNotifications. Qed.

Lemma fetchSettings_fulfils w : fst (fetchSettings env w) = Fulfilled tt.
Proof. run_fetcher fetchSettings. Qed.

Lemma fetchBookListings_fulfils bookId w :
  fst (fetchBookListings env bookId w) = Fulfilled tt.
Proof. run_fetcher fetchBookListings. Qed.

Ltac failed_fetcher f :=
  unfold f, failed; unfold_monad; cbn;
  destruct (respond _ _ _ _) as [resp | e]; cbn; [ | reflexivity ];
  destruct (json resp); cbn; [ intros [] | reflexivity ].

Lemma fetchBooks_failed w :
  failed (respond env RBooks (length (sent w)) (get (url_books env))) ->
  app (snd (fetchBooks env w)) = app w.
Proof. failed_fetcher fetchBooks. Qed.

Lemma fetchNotifications_failed w :
  failed (respond env RNotifications (length (sent w)) (get (url_notifications env))) ->
  app (snd (fetchNotifications env w)) = app w.
Proof. failed_fetcher fetchNotifications. Qed.

Lemma fetchSettings_failed w :
  failed (respond env RSettings (length (sent w)) (get (url_settings env))) ->
  app (snd (fetchSettings env w)) = app w.
Proof. failed_fetcher fetchSettings. Qed.

Lemma fetchBookListings_failed bookId w :
  failed (respond env RListings (length (sent w)) (get (url_listings env bookId))) ->
  app (snd (fetchBookListings env bookId w)) = app w.
Proof. failed_fetcher fetchBookListings. Qed.

(** What a fetcher stores when nothing fails. *)
Lemma fetchNotifications_stores w resp ns :
  respond env RNotifications (length (sent w)) (get (url_notifications env))
    = Fulfilled resp ->
  json resp = Fulfilled ns ->
  notifications (app (snd (fetchNotifications env w))) = ns.
Proof.
  intros Hresp Hjson. unfold fetchNotifications. unfold_monad. cbn.
  rewrite Hresp. cbn. rewrite Hjson. reflexivity.
Qed.

End Fetchers.

(** *** No exception escapes a handler that ends in a [catch] *)

Section Fulfils.

Variable env : Env.

Lemma fulfils_ret {A} (a : A) : fulfils (ret a).
Proof. intros w. exists a. reflexivity. Qed.

Lemma fulfils_modify_app f : fulfils (modify_app f).
Proof. intros w. exists tt. reflexivity. Qed.

Lemma fulfils_console_error msg e : fulfils (console_error msg e).
Proof. intros w. exists tt. reflexivity. Qed.

Lemma fulfils_confirm msg : fulfils (confirm env msg).
Proof. intros w. eexists. reflexivity. Qed.

Lemma fulfils_bind {A B} (m : M A) (k : A -> M B) :
  fulfils m -> (forall a, fulfils (k a)) -> fulfils (bind m k).
Proof.
  intros Hm Hk w. unfold bind. destruct (Hm w) as [a Ha].
  destruct (m w) as [r w']. cbn in Ha. subst r. apply Hk.
Qed.

Lemma fulfils_try_catch {A} (body : M A) (handler : Exn -> M A) :
  (forall e, fulfils (handler e)) -> fulfils (try_catch body handler).
Proof.
  intros Hhandler w. unfold try_catch.
  destruct (body w) as [[a | e] w']; [ exists a; reflexivity | apply Hhandler ].
Qed.

Lemma fulfils_try_finally {A} (body : M A) (fin : M unit) :
  fulfils body -> fulfils fin -> fulfils (try_finally body fin).
Proof.
  intros Hbody Hfin w. unfold try_finally. destruct (Hbody w) as [a Ha].
  destruct (body w) as [r w']. cbn in Ha. subst r.
  destruct (Hfin w') as [u Hu]. destruct (fin w') as [r w'']. cbn in Hu. subst r.
  exists a. reflexivity.
Qed.

Lemma fulfils_if {A} (b : bool) (m1 m2 : M A) :
  fulfils m1 -> fulfils m2 -> fulfils (if b then m1 else m2).
Proof. intros H1 H2. destruct b; assumption. Qed.

Ltac fulfils := repeat (intros; first
  [ apply fulfils_try_catch | apply fulfils_try_finally | apply fulfils_bind
  | apply fulfils_if | apply fulfils_ret | apply fulfils_modify_app
  | apply fulfils_console_error | apply fulfils_confirm ]).

(** Every handler but the one of the settings select. *)
Lemma handle_fulfils s ev :
  (forall value, ev <> ChangeInterval value) -> fulfils (handle env s ev).
Proof.
  intros Hev. destruct ev; cbn [handle];
    try (exfalso; eapply Hev; reflexivity).
  - unfold fetchBooks, fetchNotifications, fetchSettings. fulfils.
  - unfold fetchNotifications. fulfils.
  - apply fulfils_modify_app.
  - apply fulfils_modify_app.
  - apply fulfils_modify_app.
  - apply fulfils_modify_app.
  - apply fulfils_modify_app.
  - unfold addBook, preventDefault. fulfils.
  - apply fulfils_modify_app.
  - unfold manualCheckBook. fulfils.
  - unfold deleteBook. fulfils.
  - unfold fetchBookListings. fulfils.
  - unfold markNotificationRead. fulfils.
  - unfold addCustomSite. fulfils.
  - unfold removeCustomSite. fulfils.
  - unfold debugScraping. fulfils.
Qed.

End Fulfils.

(** C10. Each of the four fetchers ([fetchBooks], [fetchNotifications],
    [fetchSettings], [fetchBookListings]) completes normally whatever the
    backend answers, and when its request is rejected or its answer does not
    parse, the whole component state (books, notifications, settings and
    listings included) is what it was before the call. No exception escapes
    any other handler that issues requests either. *)
Theorem fetchers_contain_failures (env : Env) (bookId : jsstring) (w : World) :
  (fst (fetchBooks env w) = Fulfilled tt
   /\ (failed (respond env RBooks (length (sent w)) (get (url_books env))) ->
       app (snd (fetchBooks env w)) = app w))
  /\ (fst (fetchNotifications env w) = Fulfilled tt
      /\ (failed (respond env RNotifications (length (sent w))
                    (get (url_notifications env))) ->
          app (snd (fetchNotifications env w)) = app w))
  /\ (fst (fetchSettings env w) = Fulfilled tt
      /\ (failed (respond env RSettings (length (sent w)) (get (url_settings env))) ->
          app (snd (fetchSettings env w)) = app w))
  /\ (fst (fetchBookListings env bookId w) = Fulfilled tt
      /\ (failed (respond env RListings (length (sent w))
                    (get (url_listings env bookId))) ->
          app (snd (fetchBookListings env bookId w)) = app w))
  /\ (forall (s : AppState) (ev : Event),
        (forall value, ev <> ChangeInterval value) ->
        fst (handle env s ev w) = Fulfilled tt).
Proof.
  repeat split;
    try (intros s ev Hev; destruct (handle_fulfils env s ev Hev w) as [[] Hu];
         exact Hu).
  - apply fetchBooks_fulfils.
  - apply fetchBooks_failed.
  - apply fetchNotifications_fulfils.
  - apply fetchNotifications_failed.
  - apply fetchSettings_fulfils.
  - apply fetchSettings_failed.
  - apply fetchBookListings_fulfils.
  - apply fetchBookListings_failed.
Qed.

(** The failure cases of C10 are inhabited: with every request rejected, and
    with every answer unparseable, each fetcher fulfils and leaves the
    state alone. *)
Example fetchers_offline :
  fetchBooks offline initialWorld
  = (Fulfilled tt,
     mkWorld initialState [get (url_books offline)]
       [ConsoleError (js "Error fetching books:") FetchFailed] [])
  /\ app (snd (fetchBookListings garbled (js "b1") initialWorld)) = initialState.
Proof. split; reflexivity. Qed.

Lemma fetchers_contain_failures_witness :
  app (snd (fetchBooks offline initialWorld)) = initialState
  /\ app (snd (fetchNotifications offline initialWorld)) = initialState
  /\ app (snd (fetchSettings garbled initialWorld)) = initialState
  /\ app (snd (fetchBookListings garbled (js "b1") initialWorld)) = initialState
  /\ fst (handle offline initialState (ClickCheck (js "b1")) initialWorld)
     = Fulfilled tt.
Proof.
  destruct (fetchers_contain_failures offline (js "b1") initialWorld)
    as [[_ Hbooks] [[_ Hnotifications] [_ [_ Hhandle]]]].
  destruct (fetchers_contain_failures garbled (js "b1") initialWorld)
    as [_ [_ [[_ Hsettings] [[_ Hlistings] _]]]].
  split; [ apply Hbooks; exact I | ].
  split; [ apply Hnotifications; exact I | ].
  split; [ apply Hsettings; exact I | ].
  split; [ apply Hlistings; exact I | ].
  apply Hhandle. intros value. discriminate.
Defined.

(** ** The unread badge *)

Lemma unread_filter_count (ns : list Notification.t) :
  length (List.filter (fun n => negb (Notification.read n)) ns) = count_unread ns.
Proof.
  induction ns as [ | n ns IH ]; [ reflexivity | ].
  cbn. destruct (Notification.read n); cbn; congruence.
Qed.

(** C9. The count computed for the notifications tab is the number of
    notifications whose [read] flag is false; the badge shows that number
    and is rendered exactly when the number is positive. *)
Theorem unread_badge_counts_unread (s : AppState) :
  unreadCount s = count_unread (notifications s)
  /\ (forall k : nat,
        badge s = Some k <-> k = count_unread (notifications s) /\ (0 < k)%nat)
  /\ (badge s = None <-> count_unread (notifications s) = 0%nat).
Proof.
  assert (Hcount : unreadCount s = count_unread (notifications s))
    by apply unread_filter_count.
  unfold badge. rewrite Hcount.
  split; [ reflexivity | ].
  destruct (count_unread (notifications s)) as [ | k' ] eqn:Hk; cbn.
  - split.
    + intros k. split; [ discriminate | intros [-> Hpos]; lia ].
    + split; reflexivity.
  - split.
    + intros k. split.
      * intros [= <-]. split; [ reflexivity | lia ].
      * intros [-> _]. reflexivity.
    + split; discriminate.
Qed.

Example unread_badge_example :
  let n (i : jsstring) (r : bool) := Notification.mk i [] [] [] r [] in
  let s := mkApp [] [n (js "1") false; n (js "2") true; n (js "3") false]
             ∅ TabBooks false false
             (Settings.mk 6) initialNewBook [] ∅ in
  badge s = Some 2%nat /\ badge initialState = None.
Proof. split; reflexivity. Qed.

(** ** The settings select *)

(** C1. Selecting an interval in the settings view issues no request: the
    change handler calls [updateSettings], an identifier without binding, so
    the handler throws a ReferenceError and leaves the world as it was, for
    every value of the select and in particular for 1, 3, 6, 12 and 24. *)
Theorem interval_onChange_throws (env : Env) (s : AppState) (value : jsstring)
    (w : World) :
  interval_onChange s value w = (Rejected (ReferenceError (js "updateSettings")), w)
  /\ sent (run env [ChangeInterval value] w) = sent w
  /\ settings (app (run env [ChangeInterval value] w)) = settings (app w).
Proof. repeat split. Qed.

(** ** [markNotificationRead] *)






Example markNotificationRead_example :
  sent (snd (markNotificationRead online (js "n7") initialWorld))
  = [mkRequest PUT (js "http://localhost:8001/api/notifications/n7/read") [] NoBody;
     mkRequest GET (js "http://localhost:8001/api/notifications") [] NoBody].
Proof. reflexivity. Qed.

(** ** [manualCheckBook] *)




Example manualCheckBook_online :
  sent (snd (manualCheckBook online (js "b1") initialWorld))
  = [mkRequest POST (js "http://localhost:8001/api/books/b1/check") [] NoBody;
     mkRequest GET (js "http://localhost:8001/api/books") [] NoBody;
     mkRequest GET (js "http://localhost:8001/api/notifications") [] NoBody;
     mkRequest GET (js "http://localhost:8001/api/listings/b1") [] NoBody].
Proof. reflexivity. Qed.

(** ** [deleteBook] *)


Example deleteBook_declined :
  deleteBook offline (js "b1") initialWorld
  = (Fulfilled tt,
     mkWorld initialState [] [] [ConfirmDialog confirm_delete_message]).
Proof. reflexivity. Qed.

Example deleteBook_confirmed :
  sent (snd (deleteBook online (js "b1") initialWorld))
  = [mkRequest DELETE (js "http://localhost:8001/api/books/b1") [] NoBody;
     mkRequest GET (js "http://localhost:8001/api/books") [] NoBody].
Proof. reflexivity. Qed.

(** ** [addBook] *)

Lemma addBook_sent (env : Env) (s : AppState) (w : World) :
  exists reload,
    sent (snd (addBook env s w)) = sent w ++ create_request env (newBook s) :: reload
    /\ Forall is_get reload.
Proof.
  unfold addBook, fetchBooks, create_request.
  unfold_monad. cbn.
  destruct (respond env RUnread _ _) as [resp | e]; cbn.
  - destruct (ok resp); cbn.
    + exists [get (url_books env)].
      repeat next_answer; rewrite <- app_assoc;
        (split; [ reflexivity | repeat constructor ]).
    + exists []. split; [ reflexivity | constructor ].
  - exists []. split; [ reflexivity | constructor ].
Qed.

Lemma sitesToTrack_spec (nb : NewBook.t) (site : Site.t) :
  In site (sitesToTrack nb) <->
  exists siteName,
    In (siteName, true) (NewBook.sites nb)
    /\ site = Site.mk siteName (siteName ++ js ".com") None 0%Z.
Proof.
  unfold sitesToTrack. rewrite in_map_iff. split.
  - intros ([siteName enabled] & <- & Hin).
    apply filter_In in Hin as [Hin Henabled]. cbn in Henabled. subst enabled.
    exists siteName. split; [ exact Hin | reflexivity ].
  - intros (siteName & Hin & ->).
    exists (siteName, true). split; [ reflexivity | ].
    apply filter_In. split; [ exact Hin | reflexivity ].
Qed.

Lemma sitesToTrack_names (nb : NewBook.t) :
  map Site.name (sitesToTrack nb)
  = map fst (List.filter (fun entry : jsstring * bool => snd entry) (NewBook.sites nb)).
Proof.
  unfold sitesToTrack. rewrite map_map. reflexivity.
Qed.

(** C4. Submitting the add-book form issues, first and whatever the backend
    answers, one POST on the books URL (followed only by the GET that
    reloads the list). Its payload carries the entered title and author, the
    form's [custom_sites] and [enable_google_search], [is_active = true],
    and as [sites], in the order of the checkboxes, exactly one entry per
    checked site, each with [last_check = null] and [listings_found = 0]. *)
Theorem addBook_payload (env : Env) (s : AppState) (w : World) :
  let nb := newBook s in
  let payload := bookData nb in
  (exists reload,
      sent (snd (addBook env s w)) =
      sent w ++ mkRequest POST (url_books env) json_headers (BookBody payload) :: reload
      /\ Forall is_get reload)
  /\ BookData.title payload = NewBook.title nb
  /\ BookData.author payload = NewBook.author nb
  /\ BookData.custom_sites payload = NewBook.custom_sites nb
  /\ BookData.enable_google_search payload = NewBook.enable_google_search nb
  /\ BookData.is_active payload = true
  /\ (forall site : Site.t,
        In site (BookData.sites payload) <->
        exists siteName,
          In (siteName, true) (NewBook.sites nb)
          /\ site = Site.mk siteName (siteName ++ js ".com") None 0%Z)
  /\ map Site.name (BookData.sites payload)
     = map fst (List.filter (fun entry : jsstring * bool => snd entry)
                  (NewBook.sites nb)).
Proof.
  cbv zeta.
  split; [ apply addBook_sent | ].
  repeat (split; [ reflexivity | ]).
  split; [ apply sitesToTrack_spec | apply sitesToTrack_names ].
Qed.

Example addBook_two_of_three :
  let form :=
    NewBook.mk (js "Tutunamayanlar") (js "Oguz Atay")
      (obj_set (js "kitantik") false (NewBook.sites initialNewBook)) true [] in
  bookData form
  = BookData.mk (js "Tutunamayanlar") (js "Oguz Atay")
      [Site.mk (js "nadirkitap") (js "nadirkitap.com") None 0%Z;
       Site.mk (js "halkkitabevi") (js "halkkitabevi.com") None 0%Z]
      [] true true.
Proof. reflexivity. Qed.

(** ** [addCustomSite], [removeCustomSite] *)











Example addCustomSite_example :
  sent (snd (addCustomSite online (typed (js " kitapyurdu.com ")) (js "b1")
               initialWorld))
  = [mkRequest POST (js "http://localhost:8001/api/books/b1/add-site") json_headers
       (UrlBody (js " kitapyurdu.com "));
     mkRequest GET (js "http://localhost:8001/api/books") [] NoBody]
  /\ trim (js "  kitapyurdu.com  ") = js "kitapyurdu.com".
Proof. split; reflexivity. Qed.

(** ** Requests over a whole session *)

Section SendsOnly.

Variable env : Env.
Variable P : Request -> Prop.

Lemma sends_only_silent {A} (m : M A) :
  (forall w, sent (snd (m w)) = sent w) -> sends_only P m.
Proof. intros Hsilent w Hw. rewrite Hsilent. exact Hw. Qed.

Lemma sends_only_ret {A} (a : A) : sends_only P (ret a).
Proof. apply sends_only_silent. reflexivity. Qed.

Lemma sends_only_throw {A} (e : Exn) : sends_only P (@throw A e).
Proof. apply sends_only_silent. reflexivity. Qed.

Lemma sends_only_lift {A} (r : Settled A) : sends_only P (lift r).
Proof. apply sends_only_silent. reflexivity. Qed.

Lemma sends_only_modify_app f : sends_only P (modify_app f).
Proof. apply sends_only_silent. reflexivity. Qed.

Lemma sends_only_console_error msg e : sends_only P (console_error msg e).
Proof. apply sends_only_silent. reflexivity. Qed.

Lemma sends_only_console_log msg d : sends_only P (console_log msg d).
Proof. apply sends_only_silent. reflexivity. Qed.

Lemma sends_only_confirm msg : sends_only P (confirm env msg).
Proof. apply sends_only_silent. reflexivity. Qed.

Lemma sends_only_alert msg : sends_only P (alert msg).
Proof. apply sends_only_silent. reflexivity. Qed.

Lemma sends_only_response_json r (resp : Response r) :
  sends_only P (response_json resp).
Proof. apply sends_only_silent. reflexivity. Qed.

Lemma sends_only_fetch r req : P req -> sends_only P (fetch env r req).
Proof.
  intros Hreq w Hw. cbn. apply Forall_app. split; [ exact Hw | ].
  constructor; [ exact Hreq | constructor ].
Qed.

Lemma sends_only_bind {A B} (m : M A) (k : A -> M B) :
  sends_only P m -> (forall a, sends_only P (k a)) -> sends_only P (bind m k).
Proof.
  intros Hm Hk w Hw. unfold bind. specialize (Hm w Hw).
  destruct (m w) as [[a | e] w']; cbn in *.
  - apply Hk. exact Hm.
  - exact Hm.
Qed.

Lemma sends_only_try_catch {A} (body : M A) (handler : Exn -> M A) :
  sends_only P body -> (forall e, sends_only P (handler e)) ->
  sends_only P (try_catch body handler).
Proof.
  intros Hbody Hhandler w Hw. unfold try_catch. specialize (Hbody w Hw).
  destruct (body w) as [[a | e] w']; cbn in *.
  - exact Hbody.
  - apply Hhandler. exact Hbody.
Qed.

Lemma sends_only_try_finally {A} (body : M A) (fin : M unit) :
  sends_only P body -> sends_only P fin -> sends_only P (try_finally body fin).
Proof.
  intros Hbody Hfin w Hw. unfold try_finally. specialize (Hbody w Hw).
  destruct (body w) as [r w']. cbn in Hbody. specialize (Hfin w' Hbody).
  destruct (fin w') as [[u | e] w'']; exact Hfin.
Qed.

Lemma sends_only_when (b : bool) (m : M unit) :
  sends_only P m -> sends_only P (when b m).
Proof. intros Hm. destruct b; [ exact Hm | apply sends_only_ret ]. Qed.

Lemma sends_only_if {A} (b : bool) (m1 m2 : M A) :
  sends_only P m1 -> sends_only P m2 -> sends_only P (if b then m1 else m2).
Proof. intros H1 H2. destruct b; assumption. Qed.

End SendsOnly.

Create HintDb sends discriminated.

#[local] Hint Resolve sends_only_ret sends_only_throw sends_only_lift
  sends_only_modify_app sends_only_console_error sends_only_console_log
  sends_only_confirm sends_only_alert sends_only_response_json
  sends_only_fetch sends_only_bind sends_only_try_catch sends_only_try_finally
  sends_only_when sends_only_if : sends.

(** *** The shapes of the URLs *)

Lemma starts_with_app (a p s : jsstring) :
  starts_with (a ++ p) (a ++ s) = starts_with p s.
Proof.
  induction a as [ | c a IH ]; [ reflexivity | ].
  cbn. rewrite N.eqb_refl. exact IH.
Qed.

Lemma starts_with_self (p s : jsstring) : starts_with p (p ++ s) = true.
Proof.
  induction p as [ | c p IH ]; [ reflexivity | ].
  cbn. rewrite N.eqb_refl. exact IH.
Qed.

Section Safe.

Variable env : Env.

Ltac other_resource :=
  split;
  [ unfold url_notifications; cbn [url]; rewrite starts_with_app;
    cbn; discriminate
  | cbn; discriminate ].

Lemma safe_get_books : notification_safe env (get (url_books env)).
Proof. unfold get, url_books. other_resource. Qed.

Lemma safe_get_settings : notification_safe env (get (url_settings env)).
Proof. unfold get, url_settings. other_resource. Qed.

Lemma safe_get_listings bookId : notification_safe env (get (url_listings env bookId)).
Proof. unfold get, url_listings. other_resource. Qed.

Lemma safe_get_scrape_test title author site :
  notification_safe env (get (url_scrape_test env title author site)).
Proof. unfold get, url_scrape_test. other_resource. Qed.

Lemma safe_get_notifications : notification_safe env (get (url_notifications env)).
Proof. split; [ intros _; left; reflexivity | cbn; discriminate ]. Qed.

Lemma safe_read notificationId : notification_safe env (read_request env notificationId).
Proof.
  split; [ intros _; right; exists notificationId; reflexivity | cbn; discriminate ].
Qed.

Lemma safe_create nb : notification_safe env (create_request env nb).
Proof. unfold create_request, url_books. other_resource. Qed.

Lemma safe_check bookId : notification_safe env (check_request env bookId).
Proof. unfold check_request, url_book_check. other_resource. Qed.

Lemma safe_add_site bookId siteUrl :
  notification_safe env (add_site_request env bookId siteUrl).
Proof. unfold add_site_request, url_add_site. other_resource. Qed.

Ltac book_deletion :=
  split;
  [ unfold url_notifications; cbn [url]; rewrite starts_with_app;
    cbn; discriminate
  | intros _; cbn [url]; rewrite starts_with_app; apply starts_with_self ].

Lemma safe_delete bookId : notification_safe env (delete_request env bookId).
Proof. unfold delete_request, url_book. book_deletion. Qed.

Lemma safe_remove_site bookId siteUrl :
  notification_safe env (remove_site_request env bookId siteUrl).
Proof. unfold remove_site_request, url_remove_site. book_deletion. Qed.

End Safe.

#[local] Hint Resolve safe_get_books safe_get_settings safe_get_listings
  safe_get_scrape_test safe_get_notifications safe_read safe_create safe_check
  safe_add_site safe_delete safe_remove_site : sends.

Section Session.

Variable env : Env.

Abbreviation safe := (sends_only (notification_safe env)).

Ltac safe_request :=
  first
    [ apply safe_get_books | apply safe_get_notifications | apply safe_get_settings
    | apply safe_get_listings | apply safe_get_scrape_test | apply safe_read
    | apply safe_create | apply safe_check | apply safe_add_site
    | apply safe_delete | apply safe_remove_site ].

Ltac sends := repeat (intros; first
  [ solve [ auto with sends ]
  | apply sends_only_modify_app
  | apply sends_only_bind | apply sends_only_try_catch
  | apply sends_only_try_finally | apply sends_only_when
  | apply sends_only_if | apply sends_only_fetch; safe_request ]).

Lemma fetchBooks_safe : safe (fetchBooks env).
Proof. unfold fetchBooks, setBooks. sends. Qed.

Lemma fetchNotifications_safe : safe (fetchNotifications env).
Proof. unfold fetchNotifications, setNotifications. sends. Qed.

Lemma fetchSettings_safe : safe (fetchSettings env).
Proof. unfold fetchSettings, setSettings. sends. Qed.

Lemma fetchBookListings_safe bookId : safe (fetchBookListings env bookId).
Proof. unfold fetchBookListings, setListings. sends. Qed.

Hint Resolve fetchBooks_safe fetchNotifications_safe fetchSettings_safe
  fetchBookListings_safe : sends.

Lemma addBook_safe s : safe (addBook env s).
Proof.
  unfold addBook, preventDefault, setLoading, setNewBook, setShowAddBook. sends.
Qed.

Lemma deleteBook_safe bookId : safe (deleteBook env bookId).
Proof. unfold deleteBook. sends. Qed.

Lemma manualCheckBook_safe bookId : safe (manualCheckBook env bookId).
Proof. unfold manualCheckBook, setLoading. sends. Qed.

Lemma markNotificationRead_safe notificationId :
  safe (markNotificationRead env notificationId).
Proof. unfold markNotificationRead. sends. Qed.

Lemma addCustomSite_safe s bookId : safe (addCustomSite env s bookId).
Proof.
  unfold addCustomSite, setCustomSiteInput, setShowAddSite. sends.
Qed.

Lemma removeCustomSite_safe bookId siteUrl :
  safe (removeCustomSite env bookId siteUrl).
Proof. unfold removeCustomSite. sends. Qed.

Lemma debugScraping_safe title author site :
  safe (debugScraping env title author site).
Proof. unfold debugScraping. sends. Qed.

Lemma interval_onChange_safe s value : safe (interval_onChange s value).
Proof. apply sends_only_silent. reflexivity. Qed.

Lemma handle_safe s ev : safe (handle env s ev).
Proof.
  destruct ev; cbn [handle].
  - sends.
  - apply fetchNotifications_safe.
  - apply sends_only_modify_app.
  - apply sends_only_modify_app.
  - apply sends_only_modify_app.
  - apply sends_only_modify_app.
  - apply sends_only_modify_app.
  - apply addBook_safe.
  - apply sends_only_modify_app.
  - apply manualCheckBook_safe.
  - apply deleteBook_safe.
  - apply fetchBookListings_safe.
  - apply markNotificationRead_safe.
  - apply interval_onChange_safe.
  - apply addCustomSite_safe.
  - apply removeCustomSite_safe.
  - apply debugScraping_safe.
Qed.

Lemma run_safe evs w :
  Forall (notification_safe env) (sent w) ->
  Forall (notification_safe env) (sent (run env evs w)).
Proof.
  revert w. induction evs as [ | ev evs IH ]; intros w Hw; [ exact Hw | ].
  cbn [run]. apply IH. apply handle_safe. exact Hw.
Qed.

End Session.

(** C6. Over a whole session of the component (the mount effect, the poll
    timer, every element's handler and the functions no element calls, in
    any order and against any backend), a request on a URL under
    [/api/notifications] is either the GET of the list or the PUT that marks
    one notification read, and the URL of every DELETE is under
    [/api/books/]. So no request deletes a notification. *)
Theorem no_notification_deletion (env : Env) (evs : list Event) :
  Forall (notification_safe env) (sent (run env evs initialWorld))
  /\ forall r : Request,
       In r (sent (run env evs initialWorld)) ->
       starts_with (url_notifications env) (url r) = true ->
       method r <> DELETE.
Proof.
  assert (Hsafe : Forall (notification_safe env) (sent (run env evs initialWorld)))
    by (apply run_safe; constructor).
  split; [ exact Hsafe | ].
  intros r Hin Hurl.
  rewrite List.Forall_forall in Hsafe.
  destruct (Hsafe r Hin) as [Hnotification _].
  destruct (Hnotification Hurl) as [-> | [notificationId ->]]; cbn; discriminate.
Qed.

Lemma no_notification_deletion_witness :
  method (read_request online (js "n1")) <> DELETE.
Proof.
  apply (proj2 (no_notification_deletion online sample_session)).
  - cbn. right. right. right. left. reflexivity.
  - reflexivity.
Defined.

Example sample_session_requests :
  map (fun r => (method r, url r)) (sent (run online sample_session initialWorld))
  = [(GET, js "http://localhost:8001/api/books");
     (GET, js "http://localhost:8001/api/notifications");
     (GET, js "http://localhost:8001/api/settings");
     (PUT, js "http://localhost:8001/api/notifications/n1/read");
     (GET, js "http://localhost:8001/api/notifications");
     (GET, js "http://localhost:8001/api/notifications");
     (POST, js "http://localhost:8001/api/books/b1/check");
     (GET, js "http://localhost:8001/api/books");
     (GET, js "http://localhost:8001/api/notifications");
     (GET, js "http://localhost:8001/api/listings/b1");
     (DELETE, js "http://localhost:8001/api/books/b1");
     (GET, js "http://localhost:8001/api/books")].
Proof. reflexivity. Qed.

(** ** Reconciliation *)

Section ReconcileFacts.

Context {Key : Type} `{Countable Key}.
Variable fingerprint : Engine.RawListing -> Key.
Variable compose_message : Engine.Book -> Engine.RawListing -> jsstring.

Abbreviation diff := (Engine.diff fingerprint compose_message).
Abbreviation reconcile := (Engine.reconcile fingerprint compose_message).

(** The loop only adds fingerprints, and adds the one of every listing. *)
Lemma diff_seen now b ls (seen : gset Key) inbox :
  let '(_, seen', _) := diff now b ls seen inbox in
  seen ⊆ seen' /\ forall l, In l ls -> fingerprint l ∈ seen'.
Proof.
  revert seen inbox.
  induction ls as [ | l ls IH ]; intros seen inbox; cbn.
  - split; [ reflexivity | intros l [] ].
  - destruct (decide (fingerprint l ∈ seen)) as [Hseen | Hnew].
    + specialize (IH seen inbox).
      destruct (diff now b ls seen inbox) as [[created seen'] inbox'].
      destruct IH as [Hsub Hcover]. split; [ exact Hsub | ].
      intros l' [<- | Hin]; [ apply Hsub; exact Hseen | apply Hcover; exact Hin ].
    + specialize (IH ({[fingerprint l]} ∪ seen)
                     (inbox ++ [Engine.notify compose_message now b l inbox])).
      destruct (diff now b ls _ _) as [[created seen'] inbox'].
      destruct IH as [Hsub Hcover]. split; [ set_solver | ].
      intros l' [<- | Hin]; [ set_solver | apply Hcover; exact Hin ].
Qed.

(** A batch whose fingerprints are all stored creates nothing. *)
Lemma diff_all_seen now b ls (seen : gset Key) inbox :
  (forall l, In l ls -> fingerprint l ∈ seen) ->
  diff now b ls seen inbox = ([], seen, inbox).
Proof.
  induction ls as [ | l ls IH ]; intros Hall; cbn; [ reflexivity | ].
  destruct (decide (fingerprint l ∈ seen)) as [Hseen | Hnew].
  - apply IH. intros l' Hin. apply Hall. right. exact Hin.
  - exfalso. apply Hnew. apply Hall. left. reflexivity.
Qed.

Lemma reconcile_covers now b ls st :
  forall l, In l ls ->
    fingerprint l ∈ Engine.fingerprints (Engine.site (snd (reconcile now b ls st))).
Proof.
  unfold Engine.reconcile.
  pose proof (diff_seen now b ls (Engine.fingerprints (Engine.site st))
                (Engine.inbox st)) as Hdiff.
  destruct (diff now b ls _ _) as [[created seen'] inbox'].
  cbn. apply Hdiff.
Qed.

(** C2. Reconciling the same batch a second time, on the store the first
    call left, creates no notification and leaves the store (fingerprint
    set, [listings_found] counter and inbox) as the first call left it,
    for any book, site record, inbox, batch and fingerprint function. *)
Theorem reconcile_idempotent (now1 now2 : Z) (b : Engine.Book)
    (ls : list Engine.RawListing) (st : Engine.Store) :
  let st1 := snd (reconcile now1 b ls st) in
  reconcile now2 b ls st1 = ([], st1).
Proof.
  cbv zeta.
  pose proof (reconcile_covers now1 b ls st) as Hcover.
  destruct (snd (reconcile now1 b ls st)) as [[name enabled last_check found seen] inbox].
  cbn in Hcover. unfold Engine.reconcile. cbn.
  rewrite (diff_all_seen now2 b ls seen inbox Hcover). cbn.
  rewrite Nat.add_0_r. reflexivity.
Qed.

End ReconcileFacts.

(** Scenarios 1 to 3 of the description, on the sample data: three new
    listings on site A and none on site B, then the same batch again, then
    two known listings and a new one. *)
Example reconcile_scenarios :
  let batch := [listing (js "1"); listing (js "2"); listing (js "3")] in
  let first := Engine.reconcile by_url title_message 10 tutunamayanlar batch
                 (fresh_site (js "site-a")) in
  let other := Engine.reconcile by_url title_message 10 tutunamayanlar []
                 (fresh_site (js "site-b")) in
  let second := Engine.reconcile by_url title_message 20 tutunamayanlar batch
                  (snd first) in
  let third := Engine.reconcile by_url title_message 30 tutunamayanlar
                 [listing (js "1"); listing (js "4"); listing (js "3")]
                 (snd second) in
  length (fst first) = 3%nat
  /\ Engine.listings_found (Engine.site (snd first)) = 3%nat
  /\ Engine.listings_found (Engine.site (snd other)) = 0%nat
  /\ fst second = []
  /\ size (Engine.fingerprints (Engine.site (snd second))) = 3%nat
  /\ map Engine.listing_url (fst third) = [js "https://site-a.example/4"].
Proof. vm_compute. repeat split. Qed.

(** * Further properties of the component *)

(** ** What the fetchers write *)

Section FetcherCells.

Variable env : Env.

Ltac by_answers f :=
  intros; unfold f; unfold_monad; cbn;
  repeat next_answer;
  match goal with w : World |- _ => destruct w as [[] ? ? ?] end;
  reflexivity.

Lemma fetchBooks_cell w :
  app (snd (fetchBooks env w))
  = with_books (books (app (snd (fetchBooks env w)))) (app w).
Proof. by_answers fetchBooks. Qed.

Lemma fetchNotifications_cell w :
  app (snd (fetchNotifications env w))
  = with_notifications (notifications (app (snd (fetchNotifications env w)))) (app w).
Proof. by_answers fetchNotifications. Qed.

Lemma fetchSettings_cell w :
  app (snd (fetchSettings env w))
  = with_settings (settings (app (snd (fetchSettings env w)))) (app w).
Proof. by_answers fetchSettings. Qed.

Lemma fetchBookListings_cell bookId w :
  app (snd (fetchBookListings env bookId w))
  = with_listings (listings (app (snd (fetchBookListings env bookId w)))) (app w).
Proof. by_answers fetchBookListings. Qed.

Lemma fetchBookListings_other bookId other w :
  other <> bookId ->
  listings (app (snd (fetchBookListings env bookId w))) !! other
  = listings (app w) !! other.
Proof.
  intros Hother. unfold fetchBookListings. unfold_monad. cbn.
  repeat next_answer; try reflexivity.
  apply lookup_insert_ne. congruence.
Qed.

End FetcherCells.

(** X1. Each fetcher writes its own cell of the component state and no
    other: [fetchBooks] only [books], [fetchNotifications] only
    [notifications], [fetchSettings] only [settings], and
    [fetchBookListings] only the entry of [listings] for the book it is
    called with, the listings of every other book staying as they were,
    whatever the backend answers. *)
Theorem fetchers_write_own_cell (env : Env) (bookId : jsstring) (w : World) :
  app (snd (fetchBooks env w))
    = with_books (books (app (snd (fetchBooks env w)))) (app w)
  /\ app (snd (fetchNotifications env w))
    = with_notifications (notifications (app (snd (fetchNotifications env w)))) (app w)
  /\ app (snd (fetchSettings env w))
    = with_settings (settings (app (snd (fetchSettings env w)))) (app w)
  /\ app (snd (fetchBookListings env bookId w))
    = with_listings (listings (app (snd (fetchBookListings env bookId w)))) (app w)
  /\ forall other : jsstring,
       other <> bookId ->
       listings (app (snd (fetchBookListings env bookId w))) !! other
       = listings (app w) !! other.
Proof.
  split; [ apply fetchBooks_cell | ].
  split; [ apply fetchNotifications_cell | ].
  split; [ apply fetchSettings_cell | ].
  split; [ apply fetchBookListings_cell | ].
  intros other. apply fetchBookListings_other.
Qed.

Lemma fetchers_write_own_cell_witness :
  listings (app (snd (fetchBookListings online (js "b1") initialWorld))) !! js "b2"
  = None.
Proof.
  destruct (fetchers_write_own_cell online (js "b1") initialWorld)
    as (_ & _ & _ & _ & Hother).
  rewrite (Hother (js "b2")); [ reflexivity | discriminate ].
Defined.

(** X2. The fetchers do not look at [response.ok]: whenever the request is
    fulfilled and its body parses, the parsed value replaces the cell, also
    under an error status. For [fetchBookListings] the value is stored under
    the book's id. *)
Theorem fetchers_store_any_status (env : Env) (bookId : jsstring) (w : World) :
  (forall resp d,
     respond env RBooks (length (sent w)) (get (url_books env)) = Fulfilled resp ->
     json resp = Fulfilled d ->
     books (app (snd (fetchBooks env w))) = d)
  /\ (forall resp d,
        respond env RNotifications (length (sent w)) (get (url_notifications env))
          = Fulfilled resp ->
        json resp = Fulfilled d ->
        notifications (app (snd (fetchNotifications env w))) = d)
  /\ (forall resp d,
        respond env RSettings (length (sent w)) (get (url_settings env))
          = Fulfilled resp ->
        json resp = Fulfilled d ->
        settings (app (snd (fetchSettings env w))) = d)
  /\ (forall resp d,
        respond env RListings (length (sent w)) (get (url_listings env bookId))
          = Fulfilled resp ->
        json resp = Fulfilled d ->
        listings (app (snd (fetchBookListings env bookId w))) !! bookId = Some d).
Proof.
  repeat split; intros resp d Hresp Hjson.
  - unfold fetchBooks. unfold_monad. cbn. rewrite Hresp. cbn. rewrite Hjson.
    reflexivity.
  - unfold fetchNotifications. unfold_monad. cbn. rewrite Hresp. cbn.
    rewrite Hjson. reflexivity.
  - unfold fetchSettings. unfold_monad. cbn. rewrite Hresp. cbn. rewrite Hjson.
    reflexivity.
  - unfold fetchBookListings. unfold_monad. cbn. rewrite Hresp. cbn.
    rewrite Hjson. cbn. apply lookup_insert_eq.
Qed.

Lemma fetchers_store_any_status_witness :
  books (app (snd (fetchBooks refusing stocked))) = []
  /\ settings (app (snd (fetchSettings refusing stocked))) = Settings.mk 6
  /\ listings (app (snd (fetchBookListings refusing (js "b1") stocked))) !! js "b1"
     = Some [].
Proof.
  destruct (fetchers_store_any_status refusing (js "b1") stocked)
    as (Hbooks & _ & Hsettings & Hlistings).
  split; [ | split ].
  - apply (Hbooks (mkResponse RBooks false (Fulfilled []))); reflexivity.
  - apply (Hsettings (mkResponse RSettings false (Fulfilled (Settings.mk 6))));
      reflexivity.
  - apply (Hlistings (mkResponse RListings false (Fulfilled []))); reflexivity.
Defined.

(** ** Outcomes of the mutating handlers *)

(** X3. [addBook] always completes normally with [loading] false. When the
    POST is fulfilled with [response.ok], it reloads the book list, resets
    the form to its initial values and closes the dialog. When the POST is
    fulfilled with an error status or rejected, it issues no further
    request and leaves the form, the dialog and the book list as they were,
    so the entered values are still there; a rejection is logged. *)
Theorem addBook_outcome (env : Env) (s : AppState) (w : World) :
  let w' := snd (addBook env s w) in
  fst (addBook env s w) = Fulfilled tt
  /\ loading (app w') = false
  /\ match respond env RUnread (length (sent w)) (create_request env (newBook s)) with
     | Fulfilled resp =>
         if ok resp
         then sent w' = sent w ++ [create_request env (newBook s); get (url_books env)]
              /\ newBook (app w') = initialNewBook
              /\ showAddBook (app w') = false
         else sent w' = sent w ++ [create_request env (newBook s)]
              /\ app w' = with_loading false (app w)
              /\ console w' = console w
     | Rejected e =>
         sent w' = sent w ++ [create_request env (newBook s)]
         /\ app w' = with_loading false (app w)
         /\ console w' = console w ++ [ConsoleError (js "Error adding book:") e]
     end.
Proof.
  cbv zeta. unfold addBook, fetchBooks, create_request. unfold_monad. cbn.
  destruct (respond env RUnread _ _) as [resp | e]; cbn.
  - destruct (ok resp); cbn.
    + repeat next_answer; rewrite <- app_assoc; repeat split.
    + destruct w as [[] ? ? ?]. repeat split.
  - destruct w as [[] ? ? ?]. repeat split.
Qed.

Example addBook_refused_keeps_form :
  let s := mkApp [] [] ∅ TabBooks true false (Settings.mk 6)
             (NewBook.mk (js "Tutunamayanlar") (js "Oguz Atay")
                (NewBook.sites initialNewBook) true []) [] ∅ in
  let w := mkWorld s [] [] [] in
  app (snd (addBook refusing s w)) = s
  /\ newBook (app (snd (addBook online s w))) = initialNewBook
  /\ showAddBook (app (snd (addBook online s w))) = false.
Proof. repeat split. Qed.

(** X4. Once the user has confirmed, [deleteBook] sends the DELETE and, as
    soon as that request is fulfilled, reloads the book list without looking
    at the status of the answer; when the DELETE is rejected nothing is
    reloaded, the state is unchanged and the error is logged. It never
    removes the book from the local list itself: the state after it is the
    state before with, at most, the reloaded list. *)
Theorem deleteBook_outcome (env : Env) (bookId : jsstring) (w : World) :
  window_confirm env (length (dialogs w)) confirm_delete_message = true ->
  let w' := snd (deleteBook env bookId w) in
  fst (deleteBook env bookId w) = Fulfilled tt
  /\ app w' = with_books (books (app w')) (app w)
  /\ match respond env RUnread (length (sent w)) (delete_request env bookId) with
     | Fulfilled _ =>
         sent w' = sent w ++ [delete_request env bookId; get (url_books env)]
     | Rejected e =>
         sent w' = sent w ++ [delete_request env bookId]
         /\ app w' = app w
         /\ console w' = console w ++ [ConsoleError (js "Error deleting book:") e]
     end.
Proof.
  intros Hconfirm. cbv zeta.
  unfold deleteBook, fetchBooks, delete_request. unfold_monad.
  cbn [dialogs]. rewrite Hconfirm. cbn.
  destruct (respond env RUnread _ _) as [resp | e]; cbn.
  - repeat next_answer; rewrite <- app_assoc; destruct w as [[] ? ? ?];
      repeat split.
  - destruct w as [[] ? ? ?]. repeat split.
Qed.

Lemma deleteBook_outcome_witness :
  sent (snd (deleteBook refusing (js "b1") stocked))
  = [delete_request refusing (js "b1"); get (url_books refusing)].
Proof.
  destruct (deleteBook_outcome refusing (js "b1") stocked eq_refl)
    as (_ & _ & Hsent).
  exact Hsent.
Defined.

(** X5. With an input that is not blank, [addCustomSite] reloads the book
    list, empties the input and records the add-site form of that book as
    closed only when the POST is fulfilled with [response.ok]; the closed
    flag is written into the [showAddSite] of the render the handler was
    created in. Under an error status or a rejection it issues no further
    request and changes no state. [removeCustomSite] reloads the book list
    under [response.ok] only, and changes nothing but the book list. *)
Theorem custom_site_outcome (env : Env) (s : AppState) (bookId siteUrl : jsstring)
    (w : World) :
  (trim (customSiteInput s) <> [] ->
   let w' := snd (addCustomSite env s bookId w) in
   match respond env RUnread (length (sent w))
           (add_site_request env bookId (customSiteInput s)) with
   | Fulfilled resp =>
       if ok resp
       then sent w' = sent w ++ [add_site_request env bookId (customSiteInput s);
                                 get (url_books env)]
            /\ customSiteInput (app w') = []
            /\ showAddSite (app w') = <[bookId := false]> (showAddSite s)
       else sent w' = sent w ++ [add_site_request env bookId (customSiteInput s)]
            /\ app w' = app w
   | Rejected _ =>
       sent w' = sent w ++ [add_site_request env bookId (customSiteInput s)]
       /\ app w' = app w
   end)
  /\ let w' := snd (removeCustomSite env bookId siteUrl w) in
     app w' = with_books (books (app w')) (app w)
     /\ match respond env RUnread (length (sent w))
                (remove_site_request env bookId siteUrl) with
        | Fulfilled resp =>
            sent w' = sent w ++ remove_site_request env bookId siteUrl ::
                        (if ok resp then [get (url_books env)] else [])
        | Rejected _ => sent w' = sent w ++ [remove_site_request env bookId siteUrl]
        end.
Proof.
  split.
  - intros Hinput. cbv zeta.
    unfold addCustomSite, fetchBooks, add_site_request.
    destruct (trim (customSiteInput s)) as [ | c t ]; [ contradiction | ].
    unfold_monad. cbn.
    destruct (respond env RUnread _ _) as [resp | e]; cbn.
    + destruct (ok resp); cbn.
      * repeat next_answer; rewrite <- app_assoc; repeat split.
      * repeat split.
    + destruct w as [[] ? ? ?]. repeat split.
  - cbv zeta. unfold removeCustomSite, fetchBooks, remove_site_request.
    unfold_monad. cbn.
    destruct (respond env RUnread _ _) as [resp | e]; cbn.
    + destruct (ok resp); cbn.
      * repeat next_answer; rewrite <- app_assoc; destruct w as [[] ? ? ?];
          repeat split.
      * destruct w as [[] ? ? ?]. repeat split.
    + destruct w as [[] ? ? ?]. repeat split.
Qed.

Lemma custom_site_outcome_witness :
  sent (snd (addCustomSite refusing (typed (js "sahaf.example")) (js "b1")
               initialWorld))
  = [add_site_request refusing (js "b1") (js "sahaf.example")]
  /\ app (snd (addCustomSite refusing (typed (js "sahaf.example")) (js "b1")
                 initialWorld))
     = initialState.
Proof.
  apply (proj1 (custom_site_outcome refusing (typed (js "sahaf.example")) (js "b1")
                  [] initialWorld)).
  cbn. discriminate.
Defined.

(** X6. [markNotificationRead] never flips the flag locally: the state after
    it differs from the state before at most in [notifications], and that
    cell changes only by the reload. When the PUT is rejected nothing is
    reloaded and the state is unchanged; when the PUT is fulfilled, whatever
    its status, the cell becomes what the reload parsed, or stays when the
    reload fails. *)
Theorem markNotificationRead_outcome (env : Env) (notificationId : jsstring)
    (w : World) :
  let w' := snd (markNotificationRead env notificationId w) in
  fst (markNotificationRead env notificationId w) = Fulfilled tt
  /\ app w' = with_notifications (notifications (app w')) (app w)
  /\ match respond env RUnread (length (sent w)) (read_request env notificationId) with
     | Rejected e =>
         app w' = app w
         /\ console w'
            = console w ++ [ConsoleError (js "Error marking notification as read:") e]
     | Fulfilled _ =>
         match respond env RNotifications (length (sent w ++ [read_request env notificationId]))
                 (get (url_notifications env)) with
         | Fulfilled reload =>
             match json reload with
             | Fulfilled ns => notifications (app w') = ns
             | Rejected _ => app w' = app w
             end
         | Rejected _ => app w' = app w
         end
     end.
Proof.
  cbv zeta. unfold markNotificationRead, fetchNotifications, read_request.
  unfold_monad. cbn.
  destruct (respond env RUnread _ _) as [resp | e]; cbn.
  - repeat next_answer; destruct w as [[] ? ? ?]; repeat split.
  - destruct w as [[] ? ? ?]. repeat split.
Qed.

(** ** Invariants of a session *)

Section Preserves.

Variable env : Env.
Variable I : AppState -> Prop.

Lemma preserves_silent {A} (m : M A) :
  (forall w, app (snd (m w)) = app w) -> preserves I m.
Proof. intros Hsilent w Hw. rewrite Hsilent. exact Hw. Qed.

Lemma preserves_modify_app f :
  (forall a, I a -> I (f a)) -> preserves I (modify_app f).
Proof. intros Hf w Hw. cbn. apply Hf. exact Hw. Qed.

Lemma preserves_bind {A B} (m : M A) (k : A -> M B) :
  preserves I m -> (forall a, preserves I (k a)) -> preserves I (bind m k).
Proof.
  intros Hm Hk w Hw. unfold bind. specialize (Hm w Hw).
  destruct (m w) as [[a | e] w']; cbn in *; [ apply Hk | ]; exact Hm.
Qed.

Lemma preserves_try_catch {A} (body : M A) (handler : Exn -> M A) :
  preserves I body -> (forall e, preserves I (handler e)) ->
  preserves I (try_catch body handler).
Proof.
  intros Hbody Hhandler w Hw. unfold try_catch. specialize (Hbody w Hw).
  destruct (body w) as [[a | e] w']; cbn in *; [ | apply Hhandler ]; exact Hbody.
Qed.

Lemma preserves_try_finally {A} (body : M A) (fin : M unit) :
  preserves I body -> preserves I fin -> preserves I (try_finally body fin).
Proof.
  intros Hbody Hfin w Hw. unfold try_finally. specialize (Hbody w Hw).
  destruct (body w) as [r w']. cbn in Hbody. specialize (Hfin w' Hbody).
  destruct (fin w') as [[u | e] w'']; exact Hfin.
Qed.

Lemma preserves_when (b : bool) (m : M unit) :
  preserves I m -> preserves I (when b m).
Proof. intros Hm. destruct b; [ exact Hm | intros w Hw; exact Hw ]. Qed.

Lemma preserves_if {A} (b : bool) (m1 m2 : M A) :
  preserves I m1 -> preserves I m2 -> preserves I (if b then m1 else m2).
Proof. intros H1 H2. destruct b; assumption. Qed.

(** Whatever the body does, the state after [try ... finally] satisfies what
    the [finally] block establishes. *)
Lemma try_finally_establishes {A} (body : M A) (fin : M unit) :
  (forall w, I (app (snd (fin w)))) ->
  forall w, I (app (snd (try_finally body fin w))).
Proof.
  intros Hfin w. unfold try_finally. destruct (body w) as [r w'].
  specialize (Hfin w'). destruct (fin w') as [[u | e] w'']; exact Hfin.
Qed.

End Preserves.

(** [preserving tac]: a handler keeps an invariant that each of its setters
    keeps, [tac] being the proof for a setter. *)
Ltac preserving tac := repeat (intros; first
  [ solve [ apply preserves_silent; reflexivity ]
  | apply preserves_modify_app; solve [ tac ]
  | apply preserves_bind | apply preserves_try_catch
  | apply preserves_try_finally | apply preserves_when | apply preserves_if ]).

Ltac unfold_handlers :=
  unfold addBook, deleteBook, manualCheckBook, markNotificationRead,
    addCustomSite, removeCustomSite, debugScraping, interval_onChange,
    title_onChange, author_onChange, site_onChange,
    fetchBooks, fetchNotifications, fetchSettings, fetchBookListings,
    setBooks, setNotifications, setListings, setSettings, setLoading,
    setNewBook, setShowAddBook, setActiveTab, setCustomSiteInput,
    setShowAddSite, preventDefault, resolve.

Lemma run_preserves (env : Env) (I : AppState -> Prop) (evs : list Event) :
  (forall s ev, In ev evs -> preserves I (handle env s ev)) ->
  forall w, I (app w) -> I (app (run env evs w)).
Proof.
  induction evs as [ | ev evs IH ]; intros Hhandle w Hw; [ exact Hw | ].
  cbn [run]. apply IH.
  - intros s ev' Hin. apply Hhandle. right. exact Hin.
  - apply Hhandle; [ left; reflexivity | exact Hw ].
Qed.

Lemma run_sends_only (env : Env) (P : Request -> Prop) (evs : list Event) :
  (forall s ev, sends_only P (handle env s ev)) ->
  forall w, Forall P (sent w) -> Forall P (sent (run env evs w)).
Proof.
  intros Hhandle. induction evs as [ | ev evs IH ]; intros w Hw; [ exact Hw | ].
  cbn [run]. apply IH. apply Hhandle. exact Hw.
Qed.

(** *** [loading] *)

Lemma addBook_ends_loading env s w : loading (app (snd (addBook env s w))) = false.
Proof.
  unfold addBook, preventDefault. unfold bind at 1 2. cbn.
  apply (try_finally_establishes (fun a => loading a = false)). reflexivity.
Qed.

Lemma manualCheckBook_ends_loading env bookId w :
  loading (app (snd (manualCheckBook env bookId w))) = false.
Proof.
  unfold manualCheckBook. unfold bind at 1. cbn.
  apply (try_finally_establishes (fun a => loading a = false)). reflexivity.
Qed.

Lemma handle_keeps_not_loading env s ev :
  preserves (fun a => loading a = false) (handle env s ev).
Proof.
  destruct ev; cbn [handle];
    try (intros w _; first [ apply addBook_ends_loading
                           | apply manualCheckBook_ends_loading ]);
    unfold_handlers;
    preserving ltac:(intros [] Ha; exact Ha).
Qed.

(** X7. The [loading] flag is released: if it is false before a sequence of
    events, it is false after it, whatever the backend answers, since
    [addBook] and [manualCheckBook] clear it in a [finally] block and no
    other handler sets it. So the check and submit buttons, disabled while
    [loading] is true, are enabled again once a handler has completed. *)
Theorem loading_released (env : Env) (evs : list Event) (w : World) :
  loading (app w) = false -> loading (app (run env evs w)) = false.
Proof.
  apply (run_preserves env (fun a => loading a = false)).
  intros s ev _. apply handle_keeps_not_loading.
Qed.

Lemma loading_released_witness :
  loading (app (run offline [SubmitNewBook; ClickCheck (js "b1"); Mount] initialWorld))
  = false.
Proof. apply loading_released. reflexivity. Defined.

(** *** The shape of the requests *)

(** [sending tac]: every request of a handler satisfies a property, [tac]
    being the proof for one request. *)
Ltac sending tac := repeat (intros; first
  [ solve [ apply sends_only_silent; reflexivity ]
  | apply sends_only_modify_app
  | apply sends_only_bind | apply sends_only_try_catch
  | apply sends_only_try_finally | apply sends_only_when | apply sends_only_if
  | apply sends_only_fetch; solve [ tac ] ]).

Ltac unfold_urls :=
  unfold get, url_books, url_notifications, url_settings, url_listings, url_book,
    url_book_check, url_notification_read, url_add_site, url_remove_site,
    url_scrape_test.

Ltac well_formed_request :=
  unfold_urls; split;
  [ cbn [url]; rewrite starts_with_app; reflexivity
  | first [ left; split; reflexivity
          | right; split; [ discriminate | split; [ reflexivity | auto ] ] ] ].

Lemma handle_well_formed env s ev : sends_only (well_formed env) (handle env s ev).
Proof.
  destruct ev; cbn [handle]; unfold_handlers; sending well_formed_request.
Qed.

(** X8. Every request of a session goes to a URL under the backend's
    [/api/]; it has either no body and no header, or a JSON body with the
    header [Content-Type: application/json] and the method POST or DELETE.
    In particular no GET and no PUT carries a body. *)
Theorem requests_well_formed (env : Env) (evs : list Event) :
  Forall (well_formed env) (sent (run env evs initialWorld))
  /\ forall r : Request,
       In r (sent (run env evs initialWorld)) ->
       method r = GET \/ method r = PUT -> body r = NoBody.
Proof.
  assert (Hall : Forall (well_formed env) (sent (run env evs initialWorld))).
  { apply run_sends_only; [ apply handle_well_formed | constructor ]. }
  split; [ exact Hall | ].
  intros r Hin Hmethod. rewrite List.Forall_forall in Hall.
  destruct (Hall r Hin) as [_ [[Hbody _] | (_ & _ & Hpost)]]; [ exact Hbody | ].
  destruct Hmethod as [Hm | Hm], Hpost as [Hp | Hp]; congruence.
Qed.

Lemma requests_well_formed_witness :
  body (read_request online (js "n1")) = NoBody.
Proof.
  apply (proj2 (requests_well_formed online sample_session)).
  - cbn. right. right. right. left. reflexivity.
  - right. reflexivity.
Defined.

(** *** The custom-site input *)

Lemma handle_keeps_input_empty env s ev :
  preserves (fun a => customSiteInput a = []) (handle env s ev).
Proof.
  destruct ev; cbn [handle]; unfold_handlers;
    preserving ltac:(intros [] Ha; first [ exact Ha | reflexivity ]).
Qed.

Ltac no_add_site_request :=
  intros u Hbody; first [ discriminate Hbody | reflexivity ].

Lemma handle_no_add_site env ev w :
  customSiteInput (app w) = [] ->
  Forall no_add_site (sent w) ->
  Forall no_add_site (sent (snd (handle env (app w) ev w))).
Proof.
  intros Hinput. revert w Hinput.
  assert (Hothers : forall s, customSiteInput s = [] ->
                              sends_only no_add_site (handle env s ev)).
  { intros s Hs. destruct ev; cbn [handle];
      try (unfold addCustomSite; rewrite Hs; cbn; apply sends_only_ret);
      unfold_handlers; sending no_add_site_request. }
  intros w Hinput. apply Hothers. exact Hinput.
Qed.

(** X9. The custom-site input starts empty and no handler writes anything
    but the empty string into it, so over a whole session it stays empty,
    [addCustomSite] always returns at its blank-input guard, and no add-site
    request is ever issued. *)
Theorem add_site_never_sent (env : Env) (evs : list Event) :
  customSiteInput (app (run env evs initialWorld)) = []
  /\ forall bookId siteUrl : jsstring,
       ~ In (add_site_request env bookId siteUrl) (sent (run env evs initialWorld)).
Proof.
  assert (Hinv : forall w,
             customSiteInput (app w) = [] -> Forall no_add_site (sent w) ->
             customSiteInput (app (run env evs w)) = []
             /\ Forall no_add_site (sent (run env evs w))).
  { induction evs as [ | ev evs IH ]; intros w Hinput Hsent; [ split; assumption | ].
    cbn [run]. apply IH.
    - apply handle_keeps_input_empty. exact Hinput.
    - apply handle_no_add_site; assumption. }
  destruct (Hinv initialWorld eq_refl (List.Forall_nil _)) as [Hinput Hsent].
  split; [ exact Hinput | ].
  intros bookId siteUrl Hin. rewrite List.Forall_forall in Hsent.
  specialize (Hsent _ Hin siteUrl eq_refl). discriminate Hsent.
Qed.

(** *** The settings *)

Lemma handle_keeps_settings env s ev v :
  ev <> Mount ->
  preserves (fun a => settings a = v) (handle env s ev).
Proof.
  intros Hev. destruct ev; cbn [handle]; try contradiction; unfold_handlers;
    preserving ltac:(intros [] Ha; exact Ha).
Qed.

(** X10. Only the mount effect writes [settings]: over any sequence of
    events without [Mount], a change of the interval select included, the
    settings of the component are what they were. *)
Theorem settings_written_by_mount_only (env : Env) (evs : list Event) (w : World) :
  ~ In Mount evs -> settings (app (run env evs w)) = settings (app w).
Proof.
  intros Hevs.
  apply (run_preserves env (fun a => settings a = settings (app w)));
    [ | reflexivity ].
  intros s ev Hin. apply handle_keeps_settings.
  intros ->. exact (Hevs Hin).
Qed.

Lemma settings_written_by_mount_only_witness :
  settings (app (run online [ClickTab TabSettings; ChangeInterval (js "24");
                             PollTimer; ClickCheck (js "b1")] stocked))
  = Settings.mk 24.
Proof.
  apply (settings_written_by_mount_only online _ stocked).
  cbn. intros H. repeat destruct H as [H | H]; try discriminate H; exact H.
Defined.

(** ** The add-book form *)

Lemma obj_set_in (k : jsstring) (v : bool) obj : In (k, v) (obj_set k v obj).
Proof.
  induction obj as [ | [k' v'] obj IH ]; cbn; [ left; reflexivity | ].
  case_bool_decide; [ left; reflexivity | right; exact IH ].
Qed.

Lemma obj_set_other (k : jsstring) (v : bool) obj (k' : jsstring) (v' : bool) :
  k' <> k -> In (k', v') (obj_set k v obj) <-> In (k', v') obj.
Proof.
  intros Hother. induction obj as [ | [k0 v0] obj IH ]; cbn.
  - split; [ intros [[= Hk _] | []]; congruence | intros [] ].
  - case_bool_decide as Hk0; cbn.
    + subst k0. split; intros [[= Hk _] | Hin]; try congruence; right; exact Hin.
    + rewrite IH. reflexivity.
Qed.

Lemma obj_set_keys (k : jsstring) (v : bool) obj :
  In k (keys obj) -> keys (obj_set k v obj) = keys obj.
Proof.
  unfold keys. induction obj as [ | [k0 v0] obj IH ]; cbn; [ intros [] | ].
  case_bool_decide as Hk0; cbn.
  - intros _. congruence.
  - intros [Hk | Hin]; [ congruence | ]. rewrite IH; [ reflexivity | exact Hin ].
Qed.

Lemma obj_set_value (k : jsstring) (v : bool) obj (v' : bool) :
  List.NoDup (keys obj) -> In (k, v') (obj_set k v obj) -> v' = v.
Proof.
  unfold keys. induction obj as [ | [k0 v0] obj IH ]; cbn.
  - intros _ [[= ->] | []]. reflexivity.
  - intros Hnodup. apply List.NoDup_cons_iff in Hnodup as [Hfresh Hnodup].
    case_bool_decide as Hk0; cbn.
    + subst k0. intros [[= ->] | Hin]; [ reflexivity | ].
      exfalso. apply Hfresh. apply (in_map fst) in Hin. exact Hin.
    + intros [[= Hk _] | Hin]; [ congruence | ]. apply IH; assumption.
Qed.

Lemma tracked_names_spec (nb : NewBook.t) (name : jsstring) :
  In name (tracked_names nb) <-> In (name, true) (NewBook.sites nb).
Proof.
  unfold tracked_names, sitesToTrack. rewrite map_map. cbn.
  rewrite in_map_iff. split.
  - intros ([k v] & <- & Hin). apply filter_In in Hin as [Hin Hv].
    cbn in Hv. subst v. exact Hin.
  - intros Hin. exists (name, true). split; [ reflexivity | ].
    apply filter_In. split; [ exact Hin | reflexivity ].
Qed.

Lemma site_onChange_newBook (s : AppState) (site : jsstring) (checked : bool)
    (w : World) :
  newBook (app (snd (site_onChange s site checked w)))
  = NewBook.mk (NewBook.title (newBook s)) (NewBook.author (newBook s))
      (obj_set site checked (NewBook.sites (newBook s)))
      (NewBook.enable_google_search (newBook s)) (NewBook.custom_sites (newBook s)).
Proof. reflexivity. Qed.

(** X11. Ticking or unticking the checkbox of a site changes, in what the
    form will send, that site only: afterwards the site is among the
    tracked sites exactly when the box is checked, every other site is
    tracked exactly when it was before, title, author, custom sites and the
    search flag are untouched, and the checkboxes keep their order. *)
Theorem site_toggle_payload (s : AppState) (site : jsstring) (checked : bool)
    (w : World) :
  List.NoDup (keys (NewBook.sites (newBook s))) ->
  In site (keys (NewBook.sites (newBook s))) ->
  let nb := newBook s in
  let nb' := newBook (app (snd (site_onChange s site checked w))) in
  (In site (tracked_names nb') <-> checked = true)
  /\ (forall other, other <> site ->
        (In other (tracked_names nb') <-> In other (tracked_names nb)))
  /\ keys (NewBook.sites nb') = keys (NewBook.sites nb)
  /\ bookData nb'
     = BookData.mk (NewBook.title nb) (NewBook.author nb) (sitesToTrack nb')
         (NewBook.custom_sites nb) (NewBook.enable_google_search nb) true.
Proof.
  intros Hnodup Hkey. cbv zeta. rewrite site_onChange_newBook.
  split; [ | split; [ | split ] ].
  - rewrite tracked_names_spec. cbn [NewBook.sites]. split.
    + intros Hin. symmetry. exact (obj_set_value _ _ _ _ Hnodup Hin).
    + intros ->. apply obj_set_in.
  - intros other Hother. rewrite !tracked_names_spec. cbn [NewBook.sites].
    apply obj_set_other. exact Hother.
  - apply obj_set_keys. exact Hkey.
  - reflexivity.
Qed.

Lemma nodup_initial_keys : List.NoDup (keys (NewBook.sites initialNewBook)).
Proof.
  repeat (apply List.NoDup_cons; [ cbn; intros H; repeat destruct H as [H | H];
                              try discriminate H; exact H | ]).
  apply List.NoDup_nil.
Qed.

Lemma site_toggle_payload_witness :
  tracked_names
    (newBook (app (snd (site_onChange initialState (js "kitantik") false
                          initialWorld))))
  = [js "nadirkitap"; js "halkkitabevi"]
  /\ (In (js "kitantik")
        (tracked_names
           (newBook (app (snd (site_onChange initialState (js "kitantik") false
                                 initialWorld))))) <-> false = true).
Proof.
  split; [ reflexivity | ].
  apply (site_toggle_payload initialState (js "kitantik") false initialWorld).
  - exact nodup_initial_keys.
  - cbn. right. left. reflexivity.
Defined.

(** X12. Edits of the form accumulate: after a title change, an author
    change and a checkbox change, each handled by the render that follows
    the previous one, submitting sends one POST whose payload is built from
    the entered title, the entered author and the updated checkboxes. *)
Theorem form_edits_accumulate (env : Env) (title author site : jsstring)
    (checked : bool) (w : World) :
  let nb := newBook (app w) in
  let edited :=
    NewBook.mk title author (obj_set site checked (NewBook.sites nb))
      (NewBook.enable_google_search nb) (NewBook.custom_sites nb) in
  exists reload,
    sent (run env [ChangeTitle title; ChangeAuthor author; ChangeSite site checked;
                   SubmitNewBook] w)
    = sent w ++ create_request env edited :: reload
    /\ Forall is_get reload.
Proof.
  cbv zeta. cbn [run handle].
  unfold title_onChange, author_onChange, site_onChange. unfold_monad. cbn.
  unfold addBook, fetchBooks, create_request. unfold_monad. cbn.
  destruct (respond env RUnread _ _) as [resp | e]; cbn.
  - destruct (ok resp); cbn.
    + exists [get (url_books env)].
      repeat next_answer; rewrite <- app_assoc;
        (split; [ reflexivity | repeat constructor ]).
    + exists []. split; [ reflexivity | constructor ].
  - exists []. split; [ reflexivity | constructor ].
Qed.

(** ** [debugScraping] *)


Example debugScraping_default_site :
  sent (snd (debugScraping online (js "Tutunamayanlar") (js "Atay") None initialWorld))
  = [get (js "http://localhost:8001/api/debug/scrape-test?title=Tutunamayanlar&author=Atay&site=nadirkitap")]
  /\ sent (snd (debugScraping unencodable (js "Tutunamayanlar") (js "Atay") None
                  initialWorld)) = [].
Proof. split; reflexivity. Qed.

(** ** The mount effect and the poll timer *)

(** X14. The mount effect issues exactly three requests, the GETs of the
    books, of the notifications and of the settings, in that order, and the
    poll timer exactly one, the GET of the notifications; a fetcher that
    fails does not keep the following ones from being called, and neither
    effect lets an exception escape. The poll changes no cell of the state
    but [notifications]. *)
Theorem mount_and_poll_requests (env : Env) (s : AppState) (w : World) :
  sent (snd (handle env s Mount w))
    = sent w ++ [get (url_books env); get (url_notifications env);
                 get (url_settings env)]
  /\ fst (handle env s Mount w) = Fulfilled tt
  /\ sent (snd (handle env s PollTimer w)) = sent w ++ [get (url_notifications env)]
  /\ fst (handle env s PollTimer w) = Fulfilled tt
  /\ app (snd (handle env s PollTimer w))
     = with_notifications (notifications (app (snd (handle env s PollTimer w)))) (app w).
Proof.
  cbn [handle].
  split; [ | split; [ | split; [ | split ] ] ].
  - unfold fetchBooks, fetchNotifications, fetchSettings. unfold_monad. cbn.
    repeat next_answer; rewrite <- ?app_assoc; reflexivity.
  - unfold fetchBooks, fetchNotifications, fetchSettings. unfold_monad. cbn.
    repeat next_answer; reflexivity.
  - apply fetchNotifications_sent.
  - apply fetchNotifications_fulfils.
  - apply fetchNotifications_cell.
Qed.

Example mount_offline :
  sent (run offline [Mount] initialWorld)
  = [get (url_books offline); get (url_notifications offline);
     get (url_settings offline)]
  /\ app (run offline [Mount] initialWorld) = initialState
  /\ length (console (run offline [Mount] initialWorld)) = 3%nat.
Proof. repeat split. Qed.

(** ** The buttons of the books tab *)

Lemma book_buttons_check (s : AppState) (book : Book.t) (bookId : jsstring) :
  In (ClickCheck bookId) (book_buttons s book) <->
  loading s = false /\ Book.id book = bookId.
Proof.
  unfold book_buttons. destruct (loading s); cbn.
  - split.
    + intros H. repeat destruct H as [H | H]; try discriminate H; contradiction.
    + intros [H _]. discriminate H.
  - split.
    + intros H. repeat destruct H as [H | H]; try discriminate H;
        try contradiction. injection H as ->. split; reflexivity.
    + intros [_ ->]. left. reflexivity.
Qed.

Lemma book_buttons_delete (s : AppState) (book : Book.t) (bookId : jsstring) :
  In (ClickDelete bookId) (book_buttons s book) <-> Book.id book = bookId.
Proof.
  unfold book_buttons. split.
  - intros H. apply in_app_or in H as [H | H].
    + destruct (loading s); cbn in H;
        repeat destruct H as [H | H]; try discriminate H; contradiction.
    + cbn in H. repeat destruct H as [H | H]; try discriminate H;
        try contradiction. injection H as ->. reflexivity.
  - intros ->. apply in_or_app. right. left. reflexivity.
Qed.

Lemma in_books_buttons (s : AppState) (ev : Event) :
  ~ In ev [ClickNewBook; SubmitNewBook; ClickCancel] ->
  In ev (books_buttons s) <->
  activeTab s = TabBooks /\ exists book, In book (books s) /\ In ev (book_buttons s book).
Proof.
  intros Hev. unfold books_buttons. destruct (activeTab s).
  - change ([ClickNewBook] ++ ?l) with (ClickNewBook :: l). split.
    + intros [H | H]; [ exfalso; apply Hev; left; exact H | ].
      apply in_app_or in H as [H | H].
      * exfalso. apply Hev.
        destruct (showAddBook s), (loading s); cbn in H;
          repeat destruct H as [H | H]; try contradiction; subst ev; cbn; auto.
      * split; [ reflexivity | ].
        apply in_concat in H as (l & Hl & Hin).
        apply in_map_iff in Hl as (book & <- & Hbook). exists book. auto.
    + intros [_ (book & Hbook & Hin)]. right. apply in_or_app. right.
      apply in_concat. exists (book_buttons s book). split; [ | exact Hin ].
      apply in_map. exact Hbook.
  - split; [ intros [] | intros [H _]; discriminate H ].
  - split; [ intros [] | intros [H _]; discriminate H ].
Qed.

(** X15. The page has a check button for a book id exactly when the books
    tab is shown, [loading] is false and a book of the list has that id; it
    has a delete button for the id exactly when the books tab is shown and a
    book of the list has that id, whether or not [loading] is true. So while
    a check or a submission is in flight no second check can be started from
    the page, but a book can still be deleted. *)
Theorem book_buttons_offered (s : AppState) (bookId : jsstring) :
  (In (ClickCheck bookId) (buttons s) <->
   activeTab s = TabBooks /\ loading s = false
   /\ exists book, In book (books s) /\ Book.id book = bookId)
  /\ (In (ClickDelete bookId) (buttons s) <->
      activeTab s = TabBooks
      /\ exists book, In book (books s) /\ Book.id book = bookId).
Proof.
  assert (Hnav : forall ev,
             (forall tab, ev <> ClickTab tab) ->
             (forall notificationId, ev <> ClickMarkRead notificationId) ->
             In ev (buttons s) <-> In ev (books_buttons s)).
  { intros ev Htab Hread. unfold buttons. split.
    - intros H. apply in_app_or in H as [H | H].
      + cbn in H. repeat destruct H as [H | H]; try contradiction;
          exfalso; eapply Htab; symmetry; exact H.
      + apply in_app_or in H as [H | H]; [ exact H | ].
        exfalso. unfold notification_buttons in H.
        destruct (activeTab s); try contradiction.
        apply in_concat in H as (l & Hl & Hin).
        apply in_map_iff in Hl as (n & <- & _).
        unfold mark_read_button in Hin. destruct (negb (Notification.read n));
          [ destruct Hin as [Hin | []]; eapply Hread; symmetry; exact Hin
          | contradiction ].
    - intros H. apply in_or_app. right. apply in_or_app. left. exact H. }
  split.
  - rewrite Hnav by discriminate.
    rewrite in_books_buttons
      by (intros H; repeat destruct H as [H | H]; try discriminate H; exact H).
    split.
    + intros [Htab (book & Hbook & Hin)].
      apply book_buttons_check in Hin as [Hloading Hid]. eauto.
    + intros (Htab & Hloading & book & Hbook & Hid).
      split; [ exact Htab | ]. exists book. split; [ exact Hbook | ].
      apply book_buttons_check. auto.
  - rewrite Hnav by discriminate.
    rewrite in_books_buttons
      by (intros H; repeat destruct H as [H | H]; try discriminate H; exact H).
    split.
    + intros [Htab (book & Hbook & Hin)].
      apply book_buttons_delete in Hin. eauto.
    + intros (Htab & book & Hbook & Hid).
      split; [ exact Htab | ]. exists book. split; [ exact Hbook | ].
      apply book_buttons_delete. exact Hid.
Qed.

(** ** The badge *)

(** X16. No badge is rendered exactly when every notification of the list
    is read, and a rendered badge never shows more than the length of the
    list. *)
Theorem badge_hidden_when_all_read (s : AppState) :
  (badge s = None <-> Forall (fun n => Notification.read n = true) (notifications s))
  /\ forall k : nat, badge s = Some k -> (k <= length (notifications s))%nat.
Proof.
  unfold badge, unreadCount.
  induction (notifications s) as [ | n ns [IHnone IHsome] ]; cbn.
  - split; [ split; [ constructor | reflexivity ] | discriminate ].
  - destruct (Notification.read n) eqn:Hread; cbn.
    + split.
      * rewrite IHnone. split.
        -- intros Hall. constructor; assumption.
        -- intros Hall. apply Forall_cons in Hall as [_ Hall]. exact Hall.
      * intros k Hk. specialize (IHsome k Hk). lia.
    + split.
      * split; [ discriminate | ].
        intros Hall. apply Forall_cons in Hall as [Hn _]. congruence.
      * intros k [= <-]. apply le_n_S.
        clear. induction ns as [ | m ns IH ]; cbn; [ lia | ].
        destruct (negb (Notification.read m)); cbn; lia.
Qed.

(** ** What a manual check touches *)

(** X17. A manual check leaves the tab, the dialog, the settings, the form,
    the custom-site input and the add-site flags as they were, and the
    listings of every book other than the checked one; of the state only
    [books], [notifications], the checked book's listings and [loading] can
    differ afterwards. When the check request is rejected, nothing but
    [loading] can differ. *)
Theorem manualCheckBook_frame (env : Env) (bookId : jsstring) (w : World) :
  let a := app w in
  let a' := app (snd (manualCheckBook env bookId w)) in
  activeTab a' = activeTab a
  /\ showAddBook a' = showAddBook a
  /\ settings a' = settings a
  /\ newBook a' = newBook a
  /\ customSiteInput a' = customSiteInput a
  /\ showAddSite a' = showAddSite a
  /\ (forall other, other <> bookId -> listings a' !! other = listings a !! other)
  /\ (is_fulfilled (respond env RUnread (length (sent w)) (check_request env bookId))
      = false -> a' = with_loading false a).
Proof.
  cbv zeta.
  unfold manualCheckBook, fetchBooks, fetchNotifications, fetchBookListings,
    check_request.
  unfold_monad. cbn.
  destruct (respond env RUnread _ _) as [resp | e]; cbn.
  - repeat next_answer; repeat split; try discriminate;
      intros other Hother; apply lookup_insert_ne; congruence.
  - destruct w as [[] ? ? ?]. repeat split.
Qed.

Lemma manualCheckBook_frame_witness :
  app (snd (manualCheckBook offline (js "b1") stocked)) = app stocked.
Proof.
  destruct (manualCheckBook_frame offline (js "b1") stocked)
    as (_ & _ & _ & _ & _ & _ & _ & Hrejected).
  apply Hrejected. reflexivity.
Defined.
